(** * Afterburner plugin for Argus Monitor: a shallow embedding of [src/main.cpp]

    The plugin attaches to the shared-memory segment published by Argus
    Monitor, looks up the temperature sensor labelled "T Sensor" and exports
    its value to MSI Afterburner.  The embedding follows [main.cpp] function
    by function:

    - Win32 handles and pointers are integers, [0] being [nullptr];
    - every Win32 call the code makes is recorded in a trace of [Event]s, and
      what the call returns is supplied by an [Os] record;
    - the contents of the mapped segment are an [ArgusMonitorData] value
      supplied to each poll iteration; a read through a null pointer or past
      the end of an array is a [Crash];
    - [float] and [double] are [spec_float] at precisions 24 and 53. *)

From Stdlib Require Import ZArith List Bool String Ascii Lia.
From Stdlib Require Import Floats.SpecFloat.
Import ListNotations.
Local Open Scope Z_scope.

(* ------------------------------------------------------------------------- *)
(** ** Infrastructure *)

Definition b8 := bool.
Definition u32 := Z.
Definition i32 := Z.
Definition f32 := spec_float.
Definition f64 := spec_float.
Definition HANDLE := Z.
Definition LPCVOID := Z.

(** [u32] arithmetic wraps around. *)
Definition wrap_u32 (z : Z) : u32 := z mod 2 ^ 32.

(** [float] is IEEE binary32, [double] is IEEE binary64. *)
Definition f32_prec := 24.
Definition f32_emax := 128.

(** The literal [0] returned where a [FLOAT] is expected. *)
Definition f32_zero : f32 := S754_zero false.

(** [FLT_MAX], the largest finite [float]. *)
Definition FLT_MAX : f32 := SFmax_float f32_prec f32_emax.

(** A small integer written as a [float] literal, such as [100.0f]. *)
Definition f32_of_Z (z : Z) : f32 := binary_normalize f32_prec f32_emax z 0 false.

(** The conversion [f32(x)] of a [double], rounding to nearest even. *)
Definition f32_of_f64 (x : f64) : f32 :=
  match x with
  | S754_finite s m e => binary_round f32_prec f32_emax s m e
  | _ => x
  end.

(** A [double] used as a condition: true unless it is a zero. *)
Definition f64_truthy (x : f64) : bool :=
  match x with
  | S754_zero _ => false
  | _ => true
  end.

(** Wide strings are lists of [wchar_t] code units.  A string ends at its
    first NUL, or at the end of the list when it holds none. *)
Definition wchar_t := Z.

Definition L (s : string) : list wchar_t :=
  map (fun c => Z.of_nat (nat_of_ascii c)) (list_ascii_of_string s).

Fixpoint wcscmp (a b : list wchar_t) : Z :=
  match a, b with
  | [], [] => 0
  | [], y :: _ => if y =? 0 then 0 else -1
  | x :: _, [] => if x =? 0 then 0 else 1
  | x :: a', y :: b' =>
      if x =? y then (if x =? 0 then 0 else wcscmp a' b')
      else if x <? y then -1 else 1
  end.

(** The characters of a wide string, up to its terminator. *)
Fixpoint wcs_chars (a : list wchar_t) : list wchar_t :=
  match a with
  | [] => []
  | x :: a' => if x =? 0 then [] else x :: wcs_chars a'
  end.

(** Faults of the C++ abstract machine that the code can run into. *)
Inductive Fault :=
| NullDeref
| OutOfBounds.

Inductive Result (A : Type) :=
| Ok (a : A)
| Crash (f : Fault).
Arguments Ok {A} a.
Arguments Crash {A} f.

Definition bind {A B} (r : Result A) (k : A -> Result B) : Result B :=
  match r with
  | Ok a => k a
  | Crash f => Crash f
  end.

Notation "x <- r ;; k" := (bind r (fun x => k))
  (at level 61, r at next level, right associativity).

(** [arr[i]] on a fixed-size array. *)
Definition index {A} (arr : list A) (i : Z) : Result A :=
  if i <? 0 then Crash OutOfBounds
  else match nth_error arr (Z.to_nat i) with
       | Some a => Ok a
       | None => Crash OutOfBounds
       end.

(** The Win32 calls of the plugin, as they appear in a trace. *)
Inductive Event :=
| EvOpenFileMappingW (ret : HANDLE)
| EvMapViewOfFile (hFile : HANDLE) (ret : LPCVOID)
| EvOpenMutexW (ret : HANDLE)
| EvCloseHandle (h : HANDLE)
| EvUnmapViewOfFile (p : LPCVOID)
| EvWaitForSingleObject (h : HANDLE)
| EvReleaseMutex (h : HANDLE)
| EvCreateThread (ret : HANDLE)
| EvSleep (ms : Z).

(** What the operating system answers to the calls that can fail. *)
Record Os := {
  os_OpenFileMappingW : HANDLE;
  os_MapViewOfFile : HANDLE -> LPCVOID;
  os_OpenMutexW : HANDLE;
  os_CreateThread : HANDLE
}.

(** Resources held by the process, for the accounting of leaks. *)
Inductive Resource :=
| RHandle (h : HANDLE)
| RView (p : LPCVOID).

Definition Resource_eqb (a b : Resource) : bool :=
  match a, b with
  | RHandle h, RHandle h' => h =? h'
  | RView p, RView p' => p =? p'
  | _, _ => false
  end.

Fixpoint release (r : Resource) (held : list Resource) : list Resource :=
  match held with
  | [] => []
  | x :: held' => if Resource_eqb r x then held' else x :: release r held'
  end.

(** The resources held after a trace, starting from [held]. *)
Fixpoint held_after (held : list Resource) (tr : list Event) : list Resource :=
  match tr with
  | [] => held
  | ev :: tr' =>
      let held' :=
        match ev with
        | EvOpenFileMappingW h => if h =? 0 then held else held ++ [RHandle h]
        | EvMapViewOfFile _ p => if p =? 0 then held else held ++ [RView p]
        | EvOpenMutexW h => if h =? 0 then held else held ++ [RHandle h]
        | EvCreateThread h => if h =? 0 then held else held ++ [RHandle h]
        | EvCloseHandle h => release (RHandle h) held
        | EvUnmapViewOfFile p => release (RView p) held
        | _ => held
        end in
      held_after held' tr'
  end.

(* ------------------------------------------------------------------------- *)
(** ** Vendor headers

    [argus/argus_monitor_data_api.h] and the two [msi/] headers are not part
    of the sources.  The records below hold the fields [main.cpp] touches. *)

(** Modelled from the spec: the constants [SENSOR_TYPE_TEMPERATURE] and
    [MONITORING_SOURCE_ID_PLUGIN_MOBO] of the vendor headers, taken as
    parameters of the development. *)
Record Headers := {
  SENSOR_TYPE_TEMPERATURE : i32;
  MONITORING_SOURCE_ID_PLUGIN_MOBO : Z
}.

(** Modelled from the spec: a sensor record, "a wide-character Label and a
    numeric Value". *)
Record ArgusMonitorSensorData := {
  Label : list wchar_t;
  Value : f64
}.

(** Modelled from the spec: the published segment, with its signature, its
    cycle counter, the per-category index tables and the flat record array. *)
Record ArgusMonitorData := {
  Signature : u32;
  CycleCounter : u32;
  OffsetForSensorType : list u32;
  SensorCount : list u32;
  SensorData : list ArgusMonitorSensorData
}.

(** Modelled from the spec: the source description of the host, with the
    fields in the order of the designated initialiser in [GetSourceDesc]. *)
Record MONITORING_SOURCE_DESC := {
  dwVersion : Z;
  szName : string;
  szUnits : string;
  szFormat : string;
  szGroup : string;
  dwID : Z;
  dwInstance : Z;
  fltMaxLimit : f32;
  fltMinLimit : f32;
  szNameTemplate : string;
  szGroupTemplate : string
}.

(* ------------------------------------------------------------------------- *)
(** ** State *)

Record ArgusState := {
  initialized : b8;
  file : HANDLE;
  data : LPCVOID;
  dataMutex : HANDLE
}.

(** [thread_h] is the field [thread] of the source's [ThreadState];
    [waterSensor] points into [SensorData] of the mapped view and is kept as
    the index of the record it points to, [None] being [nullptr]. *)
Record ThreadState := {
  poll : b8;
  dataAvailable : b8;
  lastCycleCounter : u32;
  thread_h : HANDLE;
  waterSensor : option Z
}.

Record State := {
  argus : ArgusState;
  thread : ThreadState
}.

(** The value-initialised structures, [s = {}]. *)
Definition ArgusState_zero : ArgusState :=
  {| initialized := false; file := 0; data := 0; dataMutex := 0 |}.

Definition ThreadState_zero : ThreadState :=
  {| poll := false; dataAvailable := false; lastCycleCounter := 0;
     thread_h := 0; waterSensor := None |}.

Definition State_zero : State :=
  {| argus := ArgusState_zero; thread := ThreadState_zero |}.

Definition set_initialized (s : ArgusState) (v : b8) : ArgusState :=
  {| initialized := v; file := file s; data := data s; dataMutex := dataMutex s |}.
Definition set_file (s : ArgusState) (v : HANDLE) : ArgusState :=
  {| initialized := initialized s; file := v; data := data s; dataMutex := dataMutex s |}.
Definition set_data (s : ArgusState) (v : LPCVOID) : ArgusState :=
  {| initialized := initialized s; file := file s; data := v; dataMutex := dataMutex s |}.
Definition set_dataMutex (s : ArgusState) (v : HANDLE) : ArgusState :=
  {| initialized := initialized s; file := file s; data := data s; dataMutex := v |}.

Definition set_poll (ts : ThreadState) (v : b8) : ThreadState :=
  {| poll := v; dataAvailable := dataAvailable ts;
     lastCycleCounter := lastCycleCounter ts; thread_h := thread_h ts;
     waterSensor := waterSensor ts |}.
Definition set_dataAvailable (ts : ThreadState) (v : b8) : ThreadState :=
  {| poll := poll ts; dataAvailable := v;
     lastCycleCounter := lastCycleCounter ts; thread_h := thread_h ts;
     waterSensor := waterSensor ts |}.
Definition set_lastCycleCounter (ts : ThreadState) (v : u32) : ThreadState :=
  {| poll := poll ts; dataAvailable := dataAvailable ts;
     lastCycleCounter := v; thread_h := thread_h ts;
     waterSensor := waterSensor ts |}.
Definition set_thread_h (ts : ThreadState) (v : HANDLE) : ThreadState :=
  {| poll := poll ts; dataAvailable := dataAvailable ts;
     lastCycleCounter := lastCycleCounter ts; thread_h := v;
     waterSensor := waterSensor ts |}.
Definition set_waterSensor (ts : ThreadState) (v : option Z) : ThreadState :=
  {| poll := poll ts; dataAvailable := dataAvailable ts;
     lastCycleCounter := lastCycleCounter ts; thread_h := thread_h ts;
     waterSensor := v |}.

(* ------------------------------------------------------------------------- *)
(** ** Argus API *)

(** [Argus_Deinit]: the new state and the calls made. *)
Definition Argus_Deinit (s : ArgusState) : ArgusState * list Event :=
  let t1 := if dataMutex s =? 0 then [] else [EvCloseHandle (dataMutex s)] in
  let t2 := if data s =? 0 then [] else [EvUnmapViewOfFile (data s)] in
  let t3 := if file s =? 0 then [] else [EvCloseHandle (file s)] in
  (ArgusState_zero, t1 ++ t2 ++ t3).

(** The deferred block of [Argus_Init] on a [return false]. *)
Definition Argus_Init_fail (s : ArgusState) (tr : list Event)
  : b8 * ArgusState * list Event :=
  let '(s', t) := Argus_Deinit s in (false, s', tr ++ t).

(** [Argus_Init]: the returned flag, the new state and the calls made. *)
Definition Argus_Init (os : Os) (s : ArgusState) : b8 * ArgusState * list Event :=
  let s := set_file s (os_OpenFileMappingW os) in
  let tr := [EvOpenFileMappingW (file s)] in
  if file s =? 0 then Argus_Init_fail s tr
  else
    let d := os_MapViewOfFile os (file s) in
    let tr := tr ++ [EvMapViewOfFile (file s) d] in
    if d =? 0 then Argus_Init_fail s tr
    else
      let s := set_data s d in
      let s := set_dataMutex s (os_OpenMutexW os) in
      let tr := tr ++ [EvOpenMutexW (dataMutex s)] in
      if dataMutex s =? 0 then Argus_Init_fail s tr
      else
        let s := set_initialized s true in
        (true, s, tr).

(** The resources a handle owns. *)
Definition owned (s : ArgusState) : list Resource :=
  (if file s =? 0 then [] else [RHandle (file s)]) ++
  (if data s =? 0 then [] else [RView (data s)]) ++
  (if dataMutex s =? 0 then [] else [RHandle (dataMutex s)]).

(** Attached: every part valid.  Detached: every part null. *)
Definition attached (s : ArgusState) : Prop :=
  initialized s = true /\ file s <> 0 /\ data s <> 0 /\ dataMutex s <> 0.

Definition detached (s : ArgusState) : Prop := s = ArgusState_zero.

Definition consistent (s : ArgusState) : Prop := attached s \/ detached s.

(** Attach and detach operations applied to a handle from outside. *)
Inductive HandleOp :=
| OpAttach (os : Os)
| OpDetach.

Definition apply_op (s : ArgusState) (op : HandleOp) : ArgusState :=
  match op with
  | OpAttach os => snd (fst (Argus_Init os s))
  | OpDetach => fst (Argus_Deinit s)
  end.

Definition run_ops (ops : list HandleOp) (s : ArgusState) : ArgusState :=
  fold_left apply_op ops s.

(* ------------------------------------------------------------------------- *)
(** ** Argus - Afterburner integration *)

(** [Argus_Thread_Deinit]: stop and join the poller, then detach. *)
Definition Argus_Thread_Deinit (ts : ThreadState) (as_ : ArgusState)
  : ThreadState * ArgusState * list Event :=
  let ts := set_poll ts false in
  let tr := [EvWaitForSingleObject (thread_h ts); EvCloseHandle (thread_h ts)] in
  let '(as', t) := Argus_Deinit as_ in
  (ThreadState_zero, as', tr ++ t).

Definition Argus_Thread_Init (os : Os) (ts : ThreadState) (as_ : ArgusState)
  : b8 * ThreadState * ArgusState * list Event :=
  let ts := set_poll ts true in
  let ts := set_thread_h ts (os_CreateThread os) in
  let tr := [EvCreateThread (thread_h ts)] in
  if thread_h ts =? 0 then
    let '(ts', as', t) := Argus_Thread_Deinit ts as_ in (false, ts', as', tr ++ t)
  else (true, ts, as_, tr).

(** [if (!as.initialized) Argus_Init(as);], the returned flag being dropped. *)
Definition attach_if_needed (os : Os) (as_ : ArgusState) : ArgusState * list Event :=
  if initialized as_ then (as_, [])
  else let '(_, as', tr) := Argus_Init os as_ in (as', tr).

(** [as.data->...]: the segment behind the pointer, when there is one. *)
Definition deref (p : LPCVOID) (mem : ArgusMonitorData) : Result ArgusMonitorData :=
  if p =? 0 then Crash NullDeref else Ok mem.

(** The [for] loop of lines 169-178, [n] iterations being left to run. *)
Fixpoint FindSensor_loop (records : list ArgusMonitorSensorData)
    (label : list wchar_t) (sensorOffset i : u32) (n : nat) (ts : ThreadState)
  : Result ThreadState :=
  match n with
  | O => Ok ts
  | S n' =>
      let k := wrap_u32 (sensorOffset + i) in
      sensor <- index records k ;;
      if wcscmp (Label sensor) label =? 0
      then Ok (set_waterSensor ts (Some k))
      else FindSensor_loop records label sensorOffset (i + 1) n' ts
  end.

(** Lines 165-178, the sensor locator, for a category and a label. *)
Definition FindSensor (d : ArgusMonitorData) (sensorTypeIndex : i32)
    (label : list wchar_t) (ts : ThreadState) : Result ThreadState :=
  sensorOffset <- index (OffsetForSensorType d) sensorTypeIndex ;;
  sensorCount <- index (SensorCount d) sensorTypeIndex ;;
  FindSensor_loop (SensorData d) label sensorOffset 0 (Z.to_nat sensorCount) ts.

(** Lines 156-180: what the poller does once the restart check has left
    [dataAvailable] false. *)
Definition resolve (hd : Headers) (d : ArgusMonitorData) (as_ : ArgusState)
    (ts : ThreadState) : Result (ThreadState * list Event) :=
  let ts := set_lastCycleCounter ts (CycleCounter d) in
  let ts := set_dataAvailable ts (Signature d =? 0x4D677241) in
  if dataAvailable ts then
    ts <- FindSensor d (SENSOR_TYPE_TEMPERATURE hd) (L "T Sensor") ts ;;
    Ok (ts, [EvWaitForSingleObject (dataMutex as_); EvReleaseMutex (dataMutex as_)])
  else Ok (ts, []).

(** One iteration of the [while (ts.poll)] loop of [Argus_Thread_Update]. *)
Definition Argus_Thread_Update_iter (hd : Headers) (os : Os)
    (mem : ArgusMonitorData) (s : State) : Result (State * list Event) :=
  let ts := thread s in
  let '(as_, tr) := attach_if_needed os (argus s) in
  d <- deref (data as_) mem ;;
  let ts := set_dataAvailable ts
              (dataAvailable ts && (lastCycleCounter ts <=? CycleCounter d)) in
  r <- (if negb (dataAvailable ts) then resolve hd d as_ ts else Ok (ts, [])) ;;
  Ok ({| argus := as_; thread := fst r |}, tr ++ snd r ++ [EvSleep 250]).

(** [Argus_Thread_Update]: the iterations run while [poll] is set, one per
    element of [env], which gives the answers of the operating system and
    the contents of the segment at that iteration. *)
Fixpoint Argus_Thread_Update (hd : Headers) (env : list (Os * ArgusMonitorData))
    (s : State) : Result (State * list Event) :=
  match env with
  | [] => Ok (s, [])
  | (os, mem) :: env' =>
      if poll (thread s) then
        r <- Argus_Thread_Update_iter hd os mem s ;;
        r' <- Argus_Thread_Update hd env' (fst r) ;;
        Ok (fst r', snd r ++ snd r')
      else Ok (s, [])
  end.

(* ------------------------------------------------------------------------- *)
(** ** Plugin API *)

Definition GetSourcesNum : Z := 1.

Definition GetSourceDesc (hd : Headers) (dwIndex : Z) (pDesc : MONITORING_SOURCE_DESC)
  : bool * MONITORING_SOURCE_DESC :=
  (true,
   {| dwVersion := dwVersion pDesc;
      szName := "T Sensor";
      szUnits := String "176" "C";
      szFormat := "%.0f";
      szGroup := "MOBO";
      dwID := MONITORING_SOURCE_ID_PLUGIN_MOBO hd;
      dwInstance := 0;
      fltMaxLimit := f32_of_Z 0;
      fltMinLimit := f32_of_Z 100;
      szNameTemplate := EmptyString;
      szGroupTemplate := EmptyString |}).

(** [GetSourceData] reads the global state and, through [waterSensor], the
    mapped segment. *)
Definition GetSourceData (dwIndex : Z) (mem : ArgusMonitorData) (s : State)
  : Result f32 :=
  match waterSensor (thread s) with
  | Some k =>
      sensor <- index (SensorData mem) k ;;
      if f64_truthy (Value sensor) then Ok (f32_of_f64 (Value sensor))
      else Ok f32_zero
  | None => Ok f32_zero
  end.

(* ------------------------------------------------------------------------- *)
(** ** Windows API *)

Inductive Reason :=
| DLL_PROCESS_ATTACH
| DLL_PROCESS_DETACH
| DLL_THREAD_ATTACH
| DLL_THREAD_DETACH.

Definition DllMain (os : Os) (dwReason : Reason) (s : State)
  : bool * State * list Event :=
  match dwReason with
  | DLL_PROCESS_ATTACH =>
      let '(ok, ts, as_, tr) := Argus_Thread_Init os (thread s) (argus s) in
      (ok, {| argus := as_; thread := ts |}, tr)
  | DLL_PROCESS_DETACH =>
      let '(ts, as_, tr) := Argus_Thread_Deinit (thread s) (argus s) in
      (true, {| argus := as_; thread := ts |}, tr)
  | _ => (true, s, [])
  end.

(* ------------------------------------------------------------------------- *)
(** ** Reference definitions and sample data *)

(** The sensor locator as the specification words it: the first record of
    the sub-range [offset, offset + count) whose label equals the target. *)
Definition label_matches (label : list wchar_t) (r : ArgusMonitorSensorData) : bool :=
  if list_eq_dec Z.eq_dec (wcs_chars (Label r)) (wcs_chars label) then true else false.

Fixpoint first_index {A} (p : A -> bool) (l : list A) : option Z :=
  match l with
  | [] => None
  | x :: l' => if p x then Some 0
               else option_map Z.succ (first_index p l')
  end.

Definition first_match_in_range (records : list ArgusMonitorSensorData)
    (offset count : Z) (label : list wchar_t) : option Z :=
  option_map (Z.add offset)
    (first_index (label_matches label)
       (firstn (Z.to_nat count) (skipn (Z.to_nat offset) records))).

(** The header values of the vendor SDKs, used for the worked examples. *)
Definition sdk : Headers :=
  {| SENSOR_TYPE_TEMPERATURE := 1; MONITORING_SOURCE_ID_PLUGIN_MOBO := 0xF2 |}.

(** The publisher is not running: nothing can be opened. *)
Definition os_absent : Os :=
  {| os_OpenFileMappingW := 0; os_MapViewOfFile := fun _ => 0;
     os_OpenMutexW := 0; os_CreateThread := 0x40 |}.

(** The publisher is running. *)
Definition os_present : Os :=
  {| os_OpenFileMappingW := 0x10; os_MapViewOfFile := fun _ => 0x7000;
     os_OpenMutexW := 0x20; os_CreateThread := 0x40 |}.

(** The mapping opens and maps, the mutex does not open. *)
Definition os_no_mutex : Os :=
  {| os_OpenFileMappingW := 0x10; os_MapViewOfFile := fun _ => 0x7000;
     os_OpenMutexW := 0; os_CreateThread := 0x40 |}.

Definition f64_of_Z (z : Z) : f64 := binary_normalize 53 1024 z 0 false.

Definition sensor (label : string) (v : Z) : ArgusMonitorSensorData :=
  {| Label := L label ++ [0]; Value := f64_of_Z v |}.

(** A segment with a fan record labelled "T Sensor" at index 0 and the
    temperature category at [1, 3), holding "CPU" and "T Sensor". *)
Definition seg_running : ArgusMonitorData :=
  {| Signature := 0x4D677241; CycleCounter := 10;
     OffsetForSensorType := [0; 1; 0];
     SensorCount := [0; 2; 1];
     SensorData := [sensor "T Sensor" 900; sensor "CPU" 55; sensor "T Sensor" 42] |}.

(** The segment after a restart of the publisher: the counter is back to 3
    and the temperature category holds "CPU" and "GPU" only. *)
Definition seg_restarted : ArgusMonitorData :=
  {| Signature := 0x4D677241; CycleCounter := 3;
     OffsetForSensorType := [0; 1; 0];
     SensorCount := [0; 2; 1];
     SensorData := [sensor "T Sensor" 900; sensor "CPU" 55; sensor "GPU" 61] |}.

Definition handle_attached : ArgusState :=
  {| initialized := true; file := 0x10; data := 0x7000; dataMutex := 0x20 |}.

Definition st_unresolved : State :=
  {| argus := handle_attached;
     thread := set_thread_h (set_poll ThreadState_zero true) 0x40 |}.

Definition st_resolved : State :=
  {| argus := handle_attached;
     thread := {| poll := true; dataAvailable := true; lastCycleCounter := 10;
                  thread_h := 0x40; waterSensor := Some 2 |} |}.

(* ------------------------------------------------------------------------- *)
(** ** Observations on states and traces *)

(** Everything the plugin holds in a state: the poller thread and what the
    handle owns. *)
Definition held_by (s : State) : list Resource :=
  (if thread_h (thread s) =? 0 then [] else [RHandle (thread_h (thread s))])
  ++ owned (argus s).

Definition is_sleep (ev : Event) : bool :=
  match ev with
  | EvSleep _ => true
  | _ => false
  end.

Definition is_handle_call (ev : Event) : bool :=
  match ev with
  | EvOpenFileMappingW _ | EvMapViewOfFile _ _ | EvOpenMutexW _
  | EvCloseHandle _ | EvUnmapViewOfFile _ | EvCreateThread _ => true
  | _ => false
  end.

(** The mutex discipline of a poller trace: a wait is on a non-null handle
    and is not nested, the release names the handle waited on, the poller
    does not sleep while it holds the mutex, and at the end of the trace the
    mutex is not held.  [holding] is the handle held so far. *)
Fixpoint mutex_ok (holding : option HANDLE) (tr : list Event) : bool :=
  match tr with
  | [] => match holding with None => true | Some _ => false end
  | EvWaitForSingleObject h :: tr' =>
      match holding with
      | None => negb (h =? 0) && mutex_ok (Some h) tr'
      | Some _ => false
      end
  | EvReleaseMutex h :: tr' =>
      match holding with
      | Some h' => (h =? h') && mutex_ok None tr'
      | None => false
      end
  | EvSleep _ :: tr' =>
      match holding with
      | None => mutex_ok None tr'
      | Some _ => false
      end
  | _ :: tr' => mutex_ok holding tr'
  end.




(** [waterSensor] is null or points inside a record array of [n] records. *)
Definition sensor_in_bounds (n : Z) (ts : ThreadState) : Prop :=
  match waterSensor ts with
  | Some k => 0 <= k < n
  | None => True
  end.

(** Whether an iteration skips the block of lines 156-180: the value of
    [dataAvailable] after the restart check of line 155. *)
Definition steady (s : State) (mem : ArgusMonitorData) : bool :=
  dataAvailable (thread s) && (lastCycleCounter (thread s) <=? CycleCounter mem).

(** The segment after a restart that moved "T Sensor" to index 1. *)
Definition seg_moved : ArgusMonitorData :=
  {| Signature := 0x4D677241; CycleCounter := 3;
     OffsetForSensorType := [0; 1; 0];
     SensorCount := [0; 2; 1];
     SensorData := [sensor "GPU" 61; sensor "T Sensor" 42; sensor "CPU" 55] |}.

(** Two polls of a running publisher: the counter reads 1000, then 20. *)
Definition env_counter_falls : list (Os * ArgusMonitorData) :=
  [(os_present,
    {| Signature := 0x4D677241; CycleCounter := 1000;
       OffsetForSensorType := [0; 1; 0]; SensorCount := [0; 2; 1];
       SensorData := SensorData seg_running |});
   (os_present,
    {| Signature := 0x4D677241; CycleCounter := 20;
       OffsetForSensorType := [0; 1; 0]; SensorCount := [0; 2; 1];
       SensorData := SensorData seg_restarted |})].

(** The host loads the plugin, the poller runs the iterations of [env], the
    host unloads the plugin. *)
Definition load_poll_unload (hd : Headers) (os : Os)
    (env : list (Os * ArgusMonitorData)) : Result (bool * State * list Event) :=
  let '(ok, s1, tr1) := DllMain os DLL_PROCESS_ATTACH State_zero in
  if ok then
    r <- Argus_Thread_Update hd env s1 ;;
    let '(ok3, s3, tr3) := DllMain os DLL_PROCESS_DETACH (fst r) in
    Ok (ok3, s3, tr1 ++ snd r ++ tr3)
  else Ok (false, s1, tr1).

(* ------------------------------------------------------------------------- *)
(** ** The shared-segment handle: [Argus_Init] and [Argus_Deinit] *)

Lemma Argus_Deinit_state (s : ArgusState) : fst (Argus_Deinit s) = ArgusState_zero.
Proof. reflexivity. Qed.

Lemma Argus_Deinit_zero : Argus_Deinit ArgusState_zero = (ArgusState_zero, []).
Proof. reflexivity. Qed.

Lemma release_head (r : Resource) (l : list Resource) : release r (r :: l) = l.
Proof.
  cbn. destruct r; cbn; now rewrite Z.eqb_refl.
Qed.

(** After [Argus_Deinit] nothing of what the handle owned is still held. *)
Lemma Argus_Deinit_releases_owned (s : ArgusState) :
  held_after (owned s) (snd (Argus_Deinit s)) = [].
Proof.
  destruct s as [ini f d m]. unfold owned, Argus_Deinit. cbn.
  destruct (Z.eqb_spec m 0) as [-> | Hm];
    destruct (Z.eqb_spec d 0) as [-> | Hd];
    destruct (Z.eqb_spec f 0) as [-> | Hf]; cbn;
    rewrite ?Z.eqb_refl; cbn; try reflexivity.
  - destruct (Z.eqb_spec m f) as [-> | Hmf]; cbn;
      rewrite ?Z.eqb_refl; reflexivity.
  - destruct (Z.eqb_spec m f) as [-> | Hmf]; cbn;
      rewrite ?Z.eqb_refl; cbn; rewrite ?Z.eqb_refl; reflexivity.
Qed.

Lemma Argus_Init_outcome (os : Os) (s : ArgusState) :
  let r := Argus_Init os s in
  (fst (fst r) = true /\ attached (snd (fst r))) \/
  (fst (fst r) = false /\ snd (fst r) = ArgusState_zero).
Proof.
  destruct s as [ini f d m]. unfold Argus_Init, Argus_Init_fail, attached. cbn.
  destruct (Z.eqb_spec (os_OpenFileMappingW os) 0) as [Hf | Hf]; [now right |].
  destruct (Z.eqb_spec (os_MapViewOfFile os (os_OpenFileMappingW os)) 0)
    as [Hd | Hd]; [now right |].
  destruct (Z.eqb_spec (os_OpenMutexW os) 0) as [Hm | Hm]; [now right |].
  left. cbn. auto.
Qed.

Lemma Argus_Init_consistent (os : Os) (s : ArgusState) :
  consistent (snd (fst (Argus_Init os s))).
Proof.
  destruct (Argus_Init_outcome os s) as [[_ H] | [_ H]]; [now left | now right].
Qed.

(** Started on a detached handle, [Argus_Init] ends holding what the handle
    owns and nothing else, whether it succeeds or not. *)
Lemma Argus_Init_accounting (os : Os) :
  held_after [] (snd (Argus_Init os ArgusState_zero))
  = owned (snd (fst (Argus_Init os ArgusState_zero))).
Proof.
  unfold Argus_Init, Argus_Init_fail, owned. cbn.
  destruct (Z.eqb_spec (os_OpenFileMappingW os) 0) as [Hf | Hf]; cbn.
  - rewrite Hf. reflexivity.
  - destruct (Z.eqb_spec (os_MapViewOfFile os (os_OpenFileMappingW os)) 0)
      as [Hd | Hd]; cbn.
    + destruct (Z.eqb_spec (os_OpenFileMappingW os) 0); [contradiction |]. cbn.
      rewrite Hd. cbn. now rewrite Z.eqb_refl.
    + destruct (Z.eqb_spec (os_OpenMutexW os) 0) as [Hm | Hm]; cbn.
      * destruct (Z.eqb_spec (os_OpenFileMappingW os) 0); [contradiction |].
        destruct (Z.eqb_spec (os_MapViewOfFile os (os_OpenFileMappingW os)) 0);
          [contradiction |]. cbn.
        rewrite Hm. cbn. now rewrite !Z.eqb_refl.
      * destruct (Z.eqb_spec (os_OpenFileMappingW os) 0); [contradiction |].
        destruct (Z.eqb_spec (os_MapViewOfFile os (os_OpenFileMappingW os)) 0);
          [contradiction |].
        destruct (Z.eqb_spec (os_OpenMutexW os) 0); [contradiction |].
        reflexivity.
Qed.

Lemma consistent_not_initialized (s : ArgusState) :
  consistent s -> initialized s = false -> s = ArgusState_zero.
Proof.
  intros [[Hi _] | Hd] Hn; [congruence | exact Hd].
Qed.

Lemma run_ops_consistent (ops : list HandleOp) :
  forall s, consistent s -> consistent (run_ops ops s).
Proof.
  unfold run_ops. induction ops as [| op ops IH]; intros s Hs; cbn; [exact Hs |].
  apply IH. destruct op as [os |]; cbn.
  - apply Argus_Init_consistent.
  - now right.
Qed.

(** C8: [Argus_Deinit] closes the mutex handle, unmaps the view and closes the
    mapping handle, in that order and skipping those that are null; it always
    leaves the all-null, not-initialized handle and nothing of what the handle
    owned stays held; on a detached handle it makes no call at all, so that a
    second [Argus_Deinit] changes nothing. *)
Theorem C8_Argus_Deinit_order_reset_idempotent (s : ArgusState) :
  snd (Argus_Deinit s)
  = filter (fun ev => match ev with
                      | EvCloseHandle h => negb (h =? 0)
                      | EvUnmapViewOfFile p => negb (p =? 0)
                      | _ => false
                      end)
      [EvCloseHandle (dataMutex s); EvUnmapViewOfFile (data s); EvCloseHandle (file s)]
  /\ fst (Argus_Deinit s) = ArgusState_zero
  /\ held_after (owned s) (snd (Argus_Deinit s)) = []
  /\ Argus_Deinit ArgusState_zero = (ArgusState_zero, [])
  /\ Argus_Deinit (fst (Argus_Deinit s)) = (fst (Argus_Deinit s), []).
Proof.
  repeat split.
  - unfold Argus_Deinit. cbn.
    destruct (dataMutex s =? 0), (data s =? 0), (file s =? 0); reflexivity.
  - apply Argus_Deinit_releases_owned.
Qed.

Lemma attach_if_needed_consistent (os : Os) (s : ArgusState) :
  consistent s -> consistent (fst (attach_if_needed os s)).
Proof.
  intros Hc. unfold attach_if_needed. destruct (initialized s); [exact Hc |].
  pose proof (Argus_Init_consistent os s) as H.
  now destruct (Argus_Init os s) as [[ok s'] tr].
Qed.

(** C6: when [Argus_Init], called as the poller calls it (on a handle that is
    not initialized), fails at any of its three steps, the handle is left
    all-null and every resource acquired on the way has been released;
    whatever sequence of attach and detach operations is applied to the
    initial handle, the handle is afterwards either fully attached or fully
    detached, and so it is after the attach attempt of a poll iteration. *)
Theorem C6_attach_failure_releases_and_no_partial_state :
  (forall (os : Os) (s : ArgusState),
      consistent s -> initialized s = false ->
      fst (fst (Argus_Init os s)) = false ->
      snd (fst (Argus_Init os s)) = ArgusState_zero
      /\ held_after (owned s) (snd (Argus_Init os s)) = [])
  /\ (forall ops : list HandleOp, consistent (run_ops ops ArgusState_zero))
  /\ (forall (os : Os) (ops : list HandleOp),
        consistent (fst (attach_if_needed os (run_ops ops ArgusState_zero)))).
Proof.
  split; [| split].
  - intros os s Hc Hn Hfail.
    rewrite (consistent_not_initialized s Hc Hn) in *.
    destruct (Argus_Init_outcome os ArgusState_zero) as [[Ht _] | [_ Hz]];
      [congruence |].
    split; [exact Hz |].
    change (owned ArgusState_zero) with (@nil Resource).
    rewrite Argus_Init_accounting, Hz. reflexivity.
  - intros ops. apply run_ops_consistent. now right.
  - intros os ops. apply attach_if_needed_consistent, run_ops_consistent.
    now right.
Qed.

(** C6 at work: the mapping opens and maps but the mutex cannot be opened. *)
Lemma C6_witness :
  snd (fst (Argus_Init os_no_mutex ArgusState_zero)) = ArgusState_zero
  /\ held_after (owned ArgusState_zero) (snd (Argus_Init os_no_mutex ArgusState_zero)) = [].
Proof.
  apply (proj1 C6_attach_failure_releases_and_no_partial_state
           os_no_mutex ArgusState_zero).
  - right. reflexivity.
  - reflexivity.
  - reflexivity.
Defined.

(* ------------------------------------------------------------------------- *)
(** ** The sensor locator *)

(** [wcscmp] answers [0] exactly on strings with the same characters. *)
Lemma wcscmp_zero_iff (a : list wchar_t) :
  forall b, wcscmp a b = 0 <-> wcs_chars a = wcs_chars b.
Proof.
  induction a as [| x a IH]; intros [| y b]; cbn.
  - tauto.
  - destruct (Z.eqb_spec y 0); split; intros H; try reflexivity; discriminate.
  - destruct (Z.eqb_spec x 0); split; intros H; try reflexivity; discriminate.
  - destruct (Z.eqb_spec x y) as [-> | Hxy].
    + destruct (Z.eqb_spec y 0) as [-> | Hy]; [tauto |].
      rewrite IH. split; intros H; [now f_equal | now injection H].
    + assert (Hne : (if x <? y then -1 else 1) <> 0) by (destruct (x <? y); lia).
      destruct (Z.eqb_spec x 0), (Z.eqb_spec y 0); subst;
        split; intros H; try contradiction; try discriminate;
        try (now injection H); lia.
Qed.

Lemma wcscmp_label_matches (label : list wchar_t) (r : ArgusMonitorSensorData) :
  (wcscmp (Label r) label =? 0) = label_matches label r.
Proof.
  unfold label_matches.
  destruct (list_eq_dec Z.eq_dec (wcs_chars (Label r)) (wcs_chars label)) as [E | N].
  - apply Z.eqb_eq. now apply wcscmp_zero_iff.
  - apply Z.eqb_neq. intros H. apply N. now apply wcscmp_zero_iff.
Qed.

Lemma label_matches_true (label : list wchar_t) (r : ArgusMonitorSensorData) :
  label_matches label r = true <-> wcscmp (Label r) label = 0.
Proof. rewrite <- wcscmp_label_matches. apply Z.eqb_eq. Qed.

Lemma index_Ok_iff {A} (arr : list A) (i : Z) (a : A) :
  index arr i = Ok a <-> 0 <= i /\ nth_error arr (Z.to_nat i) = Some a.
Proof.
  unfold index. destruct (Z.ltb_spec i 0).
  - split; [discriminate | lia].
  - destruct (nth_error arr (Z.to_nat i)) as [x |]; split.
    + intros [= ->]. auto.
    + intros [_ [= ->]]. reflexivity.
    + discriminate.
    + intros [_ H']. discriminate.
Qed.

Lemma skipn_nth_error {A} (l : list A) :
  forall (k : nat) (x : A),
    nth_error l k = Some x -> skipn k l = x :: skipn (S k) l.
Proof.
  induction l as [| y l IH]; intros [| k] x H; cbn in *; try discriminate.
  - now injection H as ->.
  - now apply IH.
Qed.

(** What [first_index] finds, and what it means to find nothing. *)
Lemma first_index_Some {A} (p : A -> bool) (l : list A) :
  forall j, first_index p l = Some j ->
    0 <= j < Z.of_nat (List.length l)
    /\ (exists x, nth_error l (Z.to_nat j) = Some x /\ p x = true)
    /\ (forall i x, 0 <= i < j -> nth_error l (Z.to_nat i) = Some x -> p x = false).
Proof.
  induction l as [| y l IH]; intros j H; cbn in H; [discriminate |].
  destruct (p y) eqn:Hy.
  - injection H as <-. cbn [List.length]. split; [lia |]. split.
    + exists y. auto.
    + intros i x Hi. lia.
  - destruct (first_index p l) as [j' |]; [| discriminate].
    injection H as <-. destruct (IH j' eq_refl) as (Hr & (x & Hx & Hpx) & Hlt).
    cbn [List.length]. split; [lia |]. split.
    + exists x. replace (Z.to_nat (Z.succ j')) with (S (Z.to_nat j')) by lia.
      auto.
    + intros i x' Hi Hn.
      destruct (Z.eq_dec i 0) as [-> | Hi0].
      * cbn in Hn. now injection Hn as <-.
      * replace (Z.to_nat i) with (S (Z.to_nat (i - 1))) in Hn by lia.
        cbn in Hn. apply (Hlt (i - 1)); [lia | exact Hn].
Qed.

Lemma first_index_None {A} (p : A -> bool) (l : list A) :
  first_index p l = None -> forall x, In x l -> p x = false.
Proof.
  induction l as [| y l IH]; intros H x Hin; cbn in *; [contradiction |].
  destruct (p y) eqn:Hy; [discriminate |].
  destruct (first_index p l); [discriminate |].
  destruct Hin as [<- | Hin]; auto.
Qed.

(** The loop against the reference search, while it stays inside the array. *)
Lemma FindSensor_loop_first_index records label off ts :
  0 <= off -> Z.of_nat (List.length records) <= 2 ^ 32 ->
  forall (n : nat) (i : Z),
    0 <= i -> off + i + Z.of_nat n <= Z.of_nat (List.length records) ->
    FindSensor_loop records label off i n ts
    = Ok match first_index (label_matches label)
                 (firstn n (skipn (Z.to_nat (off + i)) records)) with
         | Some j => set_waterSensor ts (Some (off + i + j))
         | None => ts
         end.
Proof.
  intros Hoff Hlen. induction n as [| n IH]; intros i Hi Hb; [reflexivity |].
  cbn [FindSensor_loop]. unfold wrap_u32.
  rewrite Z.mod_small by lia.
  assert (Hlt : (Z.to_nat (off + i) < List.length records)%nat) by lia.
  destruct (nth_error records (Z.to_nat (off + i))) as [r |] eqn:Hn;
    [| apply nth_error_None in Hn; lia].
  assert (Hidx : index records (off + i) = Ok r)
    by (apply index_Ok_iff; split; [lia | exact Hn]).
  rewrite Hidx. cbn [bind].
  rewrite (skipn_nth_error _ _ _ Hn). cbn [firstn first_index].
  rewrite wcscmp_label_matches.
  destruct (label_matches label r).
  - now rewrite Z.add_0_r.
  - rewrite IH by lia.
    replace (Z.to_nat (off + (i + 1))) with (S (Z.to_nat (off + i))) by lia.
    destruct (first_index _ _) as [j |]; cbn [option_map]; [| reflexivity].
    do 3 f_equal. lia.
Qed.

(** Whatever the tables hold, the locator leaves the poller state as it was
    or points [waterSensor] at a record whose label compares equal. *)
Lemma FindSensor_loop_result records label off ts :
  forall (n : nat) (i : Z) (ts' : ThreadState),
    FindSensor_loop records label off i n ts = Ok ts' ->
    ts' = ts
    \/ exists k r, ts' = set_waterSensor ts (Some k)
                   /\ index records k = Ok r /\ wcscmp (Label r) label = 0.
Proof.
  induction n as [| n IH]; intros i ts' H; cbn [FindSensor_loop] in H.
  - injection H as <-. now left.
  - destruct (index records (wrap_u32 (off + i))) as [r | f] eqn:Hidx;
      cbn [bind] in H; [| discriminate].
    destruct (Z.eqb_spec (wcscmp (Label r) label) 0) as [Hc | Hc].
    + injection H as <-. right. eauto.
    + eapply IH; eauto.
Qed.

Lemma FindSensor_result d cat label ts ts' :
  FindSensor d cat label ts = Ok ts' ->
  ts' = ts
  \/ exists k r, ts' = set_waterSensor ts (Some k)
                 /\ index (SensorData d) k = Ok r /\ wcscmp (Label r) label = 0.
Proof.
  unfold FindSensor. intros H.
  destruct (index (OffsetForSensorType d) cat); cbn [bind] in H; [| discriminate].
  destruct (index (SensorCount d) cat); cbn [bind] in H; [| discriminate].
  eapply FindSensor_loop_result; eauto.
Qed.

(** C7: for a category whose sub-range [offset, offset + count) lies inside
    the record array, the locator returns what a search of that sub-range in
    increasing index order returns: the field [waterSensor] comes out as the
    first index of the sub-range whose label compares equal to the target,
    records outside the sub-range playing no part, and keeps the value it had
    when no record of the sub-range matches; the other fields of the poller
    state are never touched. *)
Theorem C7_FindSensor_first_match_in_subrange
    (d : ArgusMonitorData) (cat : i32) (label : list wchar_t) (ts : ThreadState)
    (off cnt : u32) :
  index (OffsetForSensorType d) cat = Ok off ->
  index (SensorCount d) cat = Ok cnt ->
  0 <= off -> 0 <= cnt ->
  off + cnt <= Z.of_nat (List.length (SensorData d)) ->
  Z.of_nat (List.length (SensorData d)) <= 2 ^ 32 ->
  FindSensor d cat label ts
  = Ok {| poll := poll ts;
          dataAvailable := dataAvailable ts;
          lastCycleCounter := lastCycleCounter ts;
          thread_h := thread_h ts;
          waterSensor :=
            match first_match_in_range (SensorData d) off cnt label with
            | Some k => Some k
            | None => waterSensor ts
            end |}
  /\ (forall k, first_match_in_range (SensorData d) off cnt label = Some k ->
        off <= k < off + cnt
        /\ (exists r, index (SensorData d) k = Ok r /\ wcscmp (Label r) label = 0)
        /\ (forall j r, off <= j < k -> index (SensorData d) j = Ok r ->
              wcscmp (Label r) label <> 0))
  /\ (first_match_in_range (SensorData d) off cnt label = None ->
        forall j r, off <= j < off + cnt -> index (SensorData d) j = Ok r ->
          wcscmp (Label r) label <> 0).
Proof.
  intros Ho Hc Hoff Hcnt Hb Hlen.
  set (sub := firstn (Z.to_nat cnt) (skipn (Z.to_nat off) (SensorData d))).
  assert (Hsub : forall i, 0 <= i < cnt ->
            nth_error sub (Z.to_nat i) = nth_error (SensorData d) (Z.to_nat (off + i))).
  { intros i Hi. unfold sub.
    rewrite nth_error_firstn.
    destruct (Nat.ltb_spec (Z.to_nat i) (Z.to_nat cnt)); [| lia].
    rewrite nth_error_skipn. f_equal. lia. }
  assert (Hsublen : Z.of_nat (List.length sub) = cnt).
  { unfold sub. rewrite length_firstn, length_skipn. lia. }
  split; [| split].
  - unfold FindSensor. rewrite Ho, Hc. cbn [bind].
    rewrite FindSensor_loop_first_index by lia.
    rewrite Z.add_0_r. unfold first_match_in_range. fold sub.
    destruct (first_index (label_matches label) sub); cbn [option_map];
      [reflexivity | now destruct ts].
  - intros k Hk. unfold first_match_in_range in Hk. fold sub in Hk.
    destruct (first_index (label_matches label) sub) as [j |] eqn:Hj;
      [| discriminate].
    injection Hk as <-.
    destruct (first_index_Some _ _ _ Hj) as (Hr & (x & Hx & Hpx) & Hbefore).
    rewrite Hsublen in Hr. split; [lia |]. split.
    + exists x. split.
      * apply index_Ok_iff. split; [lia |]. now rewrite <- Hsub.
      * now apply label_matches_true.
    + intros j' r Hj' Hidx Hcmp.
      apply index_Ok_iff in Hidx as [_ Hn].
      assert (Hf : label_matches label r = false).
      { apply (Hbefore (j' - off)); [lia |].
        rewrite Hsub by lia. now replace (off + (j' - off)) with j' by lia. }
      apply label_matches_true in Hcmp. congruence.
  - intros Hnone j r Hj Hidx Hcmp.
    unfold first_match_in_range in Hnone. fold sub in Hnone.
    destruct (first_index (label_matches label) sub) eqn:Hfi; [discriminate |].
    apply index_Ok_iff in Hidx as [_ Hn].
    assert (Hin : In r sub).
    { apply (nth_error_In sub (Z.to_nat (j - off))).
      rewrite Hsub by lia. now replace (off + (j - off)) with j by lia. }
    pose proof (first_index_None _ _ Hfi r Hin) as Hf.
    apply label_matches_true in Hcmp. congruence.
Qed.

(** C7 at work: "T Sensor" is the label of records 0 and 2, the temperature
    category is the sub-range [1, 3), and record 2 is the one returned. *)
Lemma C7_witness :
  exists ts',
    FindSensor seg_running 1 (L "T Sensor") ThreadState_zero = Ok ts'
    /\ waterSensor ts' = Some 2
    /\ first_match_in_range (SensorData seg_running) 1 2 (L "T Sensor") = Some 2.
Proof.
  destruct (C7_FindSensor_first_match_in_subrange
              seg_running 1 (L "T Sensor") ThreadState_zero 1 2
              eq_refl eq_refl ltac:(lia) ltac:(lia)
              ltac:(cbn; lia) ltac:(cbn; lia)) as [Hfound _].
  eexists. split; [exact Hfound |]. split; reflexivity.
Defined.

(* ------------------------------------------------------------------------- *)
(** ** The poller: one iteration of [Argus_Thread_Update] *)

Lemma ThreadState_eta (ts : ThreadState) :
  {| poll := poll ts; dataAvailable := dataAvailable ts;
     lastCycleCounter := lastCycleCounter ts; thread_h := thread_h ts;
     waterSensor := waterSensor ts |} = ts.
Proof. now destruct ts. Qed.

Lemma attach_if_needed_pair (os : Os) (as_ : ArgusState) :
  attach_if_needed os as_
  = (fst (attach_if_needed os as_), snd (attach_if_needed os as_)).
Proof. now destruct (attach_if_needed os as_). Qed.

(** The iteration once the attach attempt is behind and the segment is
    mapped. *)
Lemma iter_mapped (hd : Headers) (os : Os) (mem : ArgusMonitorData) (s : State) :
  data (fst (attach_if_needed os (argus s))) <> 0 ->
  Argus_Thread_Update_iter hd os mem s
  = (r <- (if negb (dataAvailable (thread s)
                    && (lastCycleCounter (thread s) <=? CycleCounter mem))
           then resolve hd mem (fst (attach_if_needed os (argus s)))
                  (set_dataAvailable (thread s)
                     (dataAvailable (thread s)
                      && (lastCycleCounter (thread s) <=? CycleCounter mem)))
           else Ok (set_dataAvailable (thread s)
                      (dataAvailable (thread s)
                       && (lastCycleCounter (thread s) <=? CycleCounter mem)), [])) ;;
     Ok ({| argus := fst (attach_if_needed os (argus s)); thread := fst r |},
         snd (attach_if_needed os (argus s)) ++ snd r ++ [EvSleep 250])).
Proof.
  intros Hd. unfold Argus_Thread_Update_iter.
  rewrite (attach_if_needed_pair os (argus s)).
  unfold deref. destruct (Z.eqb_spec (data (fst (attach_if_needed os (argus s)))) 0);
    [contradiction |].
  reflexivity.
Qed.

(** With the handle detached and the attach attempt failing, the iteration
    goes on to read [as.data->CycleCounter] through a null pointer. *)
Lemma iter_attach_fails (hd : Headers) (os : Os) (mem : ArgusMonitorData) (s : State) :
  initialized (argus s) = false ->
  fst (fst (Argus_Init os (argus s))) = false ->
  Argus_Thread_Update_iter hd os mem s = Crash NullDeref.
Proof.
  intros Hi Hfail. unfold Argus_Thread_Update_iter, attach_if_needed.
  rewrite Hi.
  destruct (Argus_Init_outcome os (argus s)) as [[Ht _] | [_ Hz]]; [congruence |].
  destruct (Argus_Init os (argus s)) as [[ok as'] tr]. cbn in Hz. subst as'.
  reflexivity.
Qed.

(** C9: in an iteration that finds [dataAvailable] set and reads a cycle
    counter not below [lastCycleCounter], the poller state (availability
    flag, last-seen counter, cached sensor reference) comes out as it went
    in, and nothing is called but the final [Sleep(250)]; with the handle
    already attached the whole state is unchanged. *)
Theorem C9_resolved_steady_state_unchanged
    (hd : Headers) (os : Os) (mem : ArgusMonitorData) (s : State) :
  dataAvailable (thread s) = true ->
  lastCycleCounter (thread s) <= CycleCounter mem ->
  data (fst (attach_if_needed os (argus s))) <> 0 ->
  Argus_Thread_Update_iter hd os mem s
  = Ok ({| argus := fst (attach_if_needed os (argus s)); thread := thread s |},
        snd (attach_if_needed os (argus s)) ++ [EvSleep 250])
  /\ (initialized (argus s) = true ->
      Argus_Thread_Update_iter hd os mem s = Ok (s, [EvSleep 250])).
Proof.
  intros Hav Hle Hd.
  assert (E : Argus_Thread_Update_iter hd os mem s
              = Ok ({| argus := fst (attach_if_needed os (argus s));
                       thread := thread s |},
                    snd (attach_if_needed os (argus s)) ++ [EvSleep 250])).
  { rewrite iter_mapped by exact Hd. rewrite Hav.
    apply Z.leb_le in Hle. rewrite Hle. cbn.
    unfold set_dataAvailable. rewrite <- Hav at 1. now rewrite ThreadState_eta. }
  split; [exact E |].
  intros Hi. rewrite E. unfold attach_if_needed. rewrite Hi. cbn.
  now destruct s.
Qed.

(** C9 at work: resolved at counter 10, the segment still at counter 10. *)
Lemma C9_witness :
  Argus_Thread_Update_iter sdk os_present seg_running st_resolved
  = Ok (st_resolved, [EvSleep 250]).
Proof.
  apply (proj2 (C9_resolved_steady_state_unchanged
                  sdk os_present seg_running st_resolved
                  eq_refl ltac:(cbn; lia) ltac:(cbn; lia)) eq_refl).
Defined.

(** C2, on the code: resolved at counter 10 with [waterSensor] on record 2,
    the poller reads counter 3 from a restarted publisher whose temperature
    sub-range no longer holds "T Sensor".  The iteration detects the restart
    and runs the locator again, but [waterSensor] still points at record 2,
    now the "GPU" sensor, and [GetSourceData] reports its 61 degrees. *)
Theorem C2_restart_keeps_stale_reference :
  dataAvailable (thread st_resolved) = true
  /\ CycleCounter seg_restarted < lastCycleCounter (thread st_resolved)
  /\ first_match_in_range (SensorData seg_restarted) 1 2 (L "T Sensor") = None
  /\ index (SensorData seg_restarted) 2 = Ok (sensor "GPU" 61)
  /\ exists s' tr,
       Argus_Thread_Update_iter sdk os_present seg_restarted st_resolved = Ok (s', tr)
       /\ waterSensor (thread s') = Some 2
       /\ waterSensor (thread s') = waterSensor (thread st_resolved)
       /\ GetSourceData 0 seg_restarted s' = Ok (f32_of_Z 61).
Proof.
  split; [reflexivity |]. split; [cbn; lia |].
  split; [reflexivity |]. split; [reflexivity |].
  eexists. eexists. split; [reflexivity |].
  repeat split.
Qed.

(** C3, on the code: the plugin loads while the publisher is absent
    ([DllMain] answers [TRUE]); the first iteration of the poller attempts
    [Argus_Init], which fails and leaves [data] null, and then reads
    [as.data->CycleCounter] all the same, a read through a null pointer. *)
Theorem C3_detached_iteration_reads_through_null :
  fst (fst (DllMain os_absent DLL_PROCESS_ATTACH State_zero)) = true
  /\ forall (hd : Headers) (mem : ArgusMonitorData),
       let s := snd (fst (DllMain os_absent DLL_PROCESS_ATTACH State_zero)) in
       Argus_Thread_Update_iter hd os_absent mem s = Crash NullDeref
       /\ Argus_Thread_Update hd [(os_absent, mem)] s = Crash NullDeref.
Proof.
  split; [reflexivity |].
  intros hd mem s.
  assert (E : Argus_Thread_Update_iter hd os_absent mem s = Crash NullDeref)
    by (apply iter_attach_fails; reflexivity).
  split; [exact E |].
  cbn [Argus_Thread_Update]. change (poll (thread s)) with true. cbv iota.
  rewrite E. reflexivity.
Qed.

(* ------------------------------------------------------------------------- *)
(** ** The plugin API *)

(** C1, on the code: with no sensor resolved ([waterSensor] null)
    [GetSourceData] returns the literal [0], which is not [FLT_MAX]; a
    resolved sensor whose value is zero gives the very same answer. *)
Theorem C1_GetSourceData_unresolved_returns_zero
    (dwIndex : Z) (mem : ArgusMonitorData) (as_ : ArgusState) (ts : ThreadState) :
  GetSourceData dwIndex mem {| argus := as_; thread := set_waterSensor ts None |}
  = Ok f32_zero
  /\ GetSourceData dwIndex mem State_zero = Ok f32_zero
  /\ f32_zero <> FLT_MAX
  /\ GetSourceData dwIndex
       {| Signature := 0x4D677241; CycleCounter := 11;
          OffsetForSensorType := [0; 1; 0]; SensorCount := [0; 2; 1];
          SensorData := [sensor "T Sensor" 900; sensor "CPU" 55; sensor "T Sensor" 0] |}
       st_resolved
     = Ok f32_zero.
Proof.
  repeat split. discriminate.
Qed.

(** C5, on the code: [GetSourceDesc] fills in the name "T Sensor", the units
    degree sign and "C" (byte 176 of Windows-1252, then "C"), the format "%.0f", the group "MOBO", the
    motherboard-plugin identifier and instance 0 whatever the index and the
    poller state, but it sets the maximum limit to 0 and the minimum limit to
    100, the reverse of the range [0, 100]. *)
Theorem C5_GetSourceDesc_limits_reversed
    (hd : Headers) (dwIndex : Z) (pDesc : MONITORING_SOURCE_DESC) :
  let r := snd (GetSourceDesc hd dwIndex pDesc) in
  fst (GetSourceDesc hd dwIndex pDesc) = true
  /\ szName r = "T Sensor"%string
  /\ szUnits r = String (ascii_of_nat 176) "C"
  /\ szFormat r = "%.0f"%string
  /\ szGroup r = "MOBO"%string
  /\ dwID r = MONITORING_SOURCE_ID_PLUGIN_MOBO hd
  /\ dwInstance r = 0
  /\ fltMaxLimit r = f32_of_Z 0
  /\ fltMinLimit r = f32_of_Z 100
  /\ SFltb (fltMaxLimit r) (fltMinLimit r) = true.
Proof.
  repeat split.
Qed.

(** C10: the index argument plays no part.  [GetSourcesNum] is the constant
    1, and [GetSourceDesc] and [GetSourceData] give the same result for any
    two indices in the same program state, with no bounds check. *)
Theorem C10_index_argument_ignored
    (hd : Headers) (i j : Z) (pDesc : MONITORING_SOURCE_DESC)
    (mem : ArgusMonitorData) (s : State) :
  GetSourcesNum = 1
  /\ GetSourceDesc hd i pDesc = GetSourceDesc hd j pDesc
  /\ GetSourceData i mem s = GetSourceData j mem s.
Proof.
  repeat split.
Qed.

(* ------------------------------------------------------------------------- *)
(** ** Further properties: attaching, loading and unloading *)

Lemma held_after_app (tr1 tr2 : list Event) :
  forall held, held_after held (tr1 ++ tr2) = held_after (held_after held tr1) tr2.
Proof.
  induction tr1 as [| ev tr1 IH]; intros held; [reflexivity |].
  cbn [app held_after]. apply IH.
Qed.

Lemma release_null_owned (s : ArgusState) :
  release (RHandle 0) (owned s) = owned s.
Proof.
  destruct s as [ini f d m]. unfold owned. cbn [file data dataMutex].
  destruct (Z.eqb_spec f 0), (Z.eqb_spec d 0), (Z.eqb_spec m 0);
    cbn [app release Resource_eqb];
    repeat match goal with
           | |- context [0 =? ?x] =>
               destruct (Z.eqb_spec 0 x); [congruence |];
               cbn [app release Resource_eqb]
           end; reflexivity.
Qed.

(** X1: [Argus_Init] succeeds exactly when the mapping object, the view and
    the mutex can all be opened; the handle then holds what the three calls
    returned, the view being mapped from the mapping just opened, and no
    other call is made. *)
Theorem X1_Argus_Init_succeeds_iff (os : Os) (s : ArgusState) :
  let f := os_OpenFileMappingW os in
  let d := os_MapViewOfFile os f in
  let m := os_OpenMutexW os in
  (fst (fst (Argus_Init os s)) = true <-> f <> 0 /\ d <> 0 /\ m <> 0)
  /\ (fst (fst (Argus_Init os s)) = true ->
      Argus_Init os s
      = (true, {| initialized := true; file := f; data := d; dataMutex := m |},
         [EvOpenFileMappingW f; EvMapViewOfFile f d; EvOpenMutexW m])).
Proof.
  intros f d m. subst f d m. unfold Argus_Init, Argus_Init_fail. cbn.
  destruct (Z.eqb_spec (os_OpenFileMappingW os) 0) as [Hf | Hf]; cbn.
  { split; [split; [discriminate | tauto] | discriminate]. }
  destruct (Z.eqb_spec (os_MapViewOfFile os (os_OpenFileMappingW os)) 0)
    as [Hd | Hd]; cbn.
  { split; [split; [discriminate | tauto] | discriminate]. }
  destruct (Z.eqb_spec (os_OpenMutexW os) 0) as [Hm | Hm]; cbn.
  { split; [split; [discriminate | tauto] | discriminate]. }
  split; [tauto | reflexivity].
Qed.

(** X1 at work: the publisher is running. *)
Lemma X1_witness :
  Argus_Init os_present ArgusState_zero
  = (true, handle_attached,
     [EvOpenFileMappingW 0x10; EvMapViewOfFile 0x10 0x7000; EvOpenMutexW 0x20]).
Proof.
  apply (proj2 (X1_Argus_Init_succeeds_iff os_present ArgusState_zero)).
  reflexivity.
Defined.

(** X2, loading: [DllMain] on [DLL_PROCESS_ATTACH] answers [TRUE] exactly when
    the poller thread can be created.  It then sets [poll], stores the thread
    handle and touches nothing else, the handle staying detached until the
    poller runs.  When the thread cannot be created the whole state is reset
    and whatever the handle owned is released. *)
Theorem X2_DllMain_attach (os : Os) (s : State) :
  (fst (fst (DllMain os DLL_PROCESS_ATTACH s)) = true <-> os_CreateThread os <> 0)
  /\ (os_CreateThread os <> 0 ->
      DllMain os DLL_PROCESS_ATTACH s
      = (true,
         {| argus := argus s;
            thread := set_thread_h (set_poll (thread s) true) (os_CreateThread os) |},
         [EvCreateThread (os_CreateThread os)]))
  /\ (os_CreateThread os = 0 ->
      snd (fst (DllMain os DLL_PROCESS_ATTACH s)) = State_zero
      /\ held_after (owned (argus s)) (snd (DllMain os DLL_PROCESS_ATTACH s)) = []).
Proof.
  unfold DllMain, Argus_Thread_Init. cbn.
  destruct (Z.eqb_spec (os_CreateThread os) 0) as [Hz | Hnz].
  - split; [| split].
    + unfold Argus_Thread_Deinit. cbn. split; [discriminate | tauto].
    + tauto.
    + intros _. unfold Argus_Thread_Deinit. cbn. split; [reflexivity |].
      rewrite Hz. cbn. rewrite release_null_owned.
      apply Argus_Deinit_releases_owned.
  - split; [| split].
    + cbn. tauto.
    + reflexivity.
    + tauto.
Qed.

(** X2 at work: the thread is created. *)
Lemma X2_witness :
  DllMain os_present DLL_PROCESS_ATTACH State_zero
  = (true,
     {| argus := ArgusState_zero;
        thread := set_thread_h (set_poll ThreadState_zero true) 0x40 |},
     [EvCreateThread 0x40]).
Proof.
  apply (proj1 (proj2 (X2_DllMain_attach os_present State_zero))).
  cbn. lia.
Defined.

(** X3, unloading: [DllMain] on [DLL_PROCESS_DETACH] joins the poller and closes
    its handle before it releases anything of the segment, leaves the
    value-initialised state with nothing held, and [GetSourceData] answers 0
    afterwards without reading the segment. *)
Theorem X3_DllMain_detach (os : Os) (s : State) (dwIndex : Z) (mem : ArgusMonitorData) :
  let r := DllMain os DLL_PROCESS_DETACH s in
  fst (fst r) = true
  /\ snd (fst r) = State_zero
  /\ snd r = EvWaitForSingleObject (thread_h (thread s))
             :: EvCloseHandle (thread_h (thread s))
             :: snd (Argus_Deinit (argus s))
  /\ held_after (held_by s) (snd r) = []
  /\ GetSourceData dwIndex mem (snd (fst r)) = Ok f32_zero.
Proof.
  cbn zeta. unfold DllMain, Argus_Thread_Deinit. cbn.
  repeat split.
  unfold held_by.
  destruct (Z.eqb_spec (thread_h (thread s)) 0) as [Hz | Hnz]; cbn.
  - rewrite Hz. cbn. rewrite release_null_owned.
    apply Argus_Deinit_releases_owned.
  - rewrite Z.eqb_refl. apply Argus_Deinit_releases_owned.
Qed.

(* ------------------------------------------------------------------------- *)
(** ** Further properties: the poller loop *)

(** What a completed iteration did, by the three ways through its body. *)
Lemma iter_Ok_inv (hd : Headers) (os : Os) (mem : ArgusMonitorData) (s s' : State)
    (tr : list Event) :
  Argus_Thread_Update_iter hd os mem s = Ok (s', tr) ->
  let as1 := fst (attach_if_needed os (argus s)) in
  let tr1 := snd (attach_if_needed os (argus s)) in
  let ts0 := set_lastCycleCounter (thread s) (CycleCounter mem) in
  data as1 <> 0 /\ argus s' = as1
  /\ ((steady s mem = true /\ thread s' = thread s /\ tr = tr1 ++ [EvSleep 250])
      \/ (steady s mem = false /\ Signature mem <> 0x4D677241
          /\ thread s' = set_dataAvailable ts0 false
          /\ tr = tr1 ++ [EvSleep 250])
      \/ (steady s mem = false /\ Signature mem = 0x4D677241
          /\ FindSensor mem (SENSOR_TYPE_TEMPERATURE hd) (L "T Sensor")
               (set_dataAvailable ts0 true) = Ok (thread s')
          /\ tr = tr1 ++ [EvWaitForSingleObject (dataMutex as1);
                          EvReleaseMutex (dataMutex as1); EvSleep 250])).
Proof.
  intros H as1 tr1 ts0.
  destruct (Z.eq_dec (data as1) 0) as [Hz | Hnz].
  { exfalso. unfold Argus_Thread_Update_iter in H.
    rewrite (attach_if_needed_pair os (argus s)) in H. fold as1 in H.
    unfold deref in H. rewrite Hz in H. discriminate. }
  split; [exact Hnz |].
  rewrite iter_mapped in H by exact Hnz.
  fold (steady s mem) in H. fold as1 tr1 in H.
  destruct (steady s mem) eqn:Est; cbn [negb] in H.
  - cbn [bind fst snd app] in H. injection H as <- <-.
    split; [reflexivity |]. left. split; [reflexivity |]. split; [| reflexivity].
    apply andb_true_iff in Est as [Hav _]. cbn [thread].
    unfold set_dataAvailable. rewrite <- Hav at 1. apply ThreadState_eta.
  - unfold resolve in H. cbn [set_dataAvailable set_lastCycleCounter
      dataAvailable lastCycleCounter poll thread_h waterSensor] in H.
    destruct (Z.eqb_spec (Signature mem) 0x4D677241) as [Hs | Hs].
    + match type of H with
      | context [FindSensor ?d ?c ?l ?t] =>
          destruct (FindSensor d c l t) as [ts' | f] eqn:Hf
      end; cbn [bind fst snd] in H; [| discriminate].
      injection H as <- <-.
      split; [reflexivity |]. right. right.
      repeat split; auto.
    + cbn [bind fst snd app] in H. injection H as <- <-.
      split; [reflexivity |]. right. left. repeat split; auto.
Qed.

Lemma run_nil (hd : Headers) (s : State) :
  Argus_Thread_Update hd [] s = Ok (s, []).
Proof. reflexivity. Qed.

Lemma run_stopped (hd : Headers) (env : list (Os * ArgusMonitorData)) (s : State) :
  poll (thread s) = false -> Argus_Thread_Update hd env s = Ok (s, []).
Proof.
  intros Hp. destruct env as [| [os mem] env]; cbn; [reflexivity |].
  now rewrite Hp.
Qed.

Lemma run_cons_inv (hd : Headers) (os : Os) (mem : ArgusMonitorData)
    (env : list (Os * ArgusMonitorData)) (s s' : State) (tr : list Event) :
  poll (thread s) = true ->
  Argus_Thread_Update hd ((os, mem) :: env) s = Ok (s', tr) ->
  exists s1 tr1 tr2,
    Argus_Thread_Update_iter hd os mem s = Ok (s1, tr1)
    /\ Argus_Thread_Update hd env s1 = Ok (s', tr2)
    /\ tr = tr1 ++ tr2.
Proof.
  intros Hp H. cbn [Argus_Thread_Update] in H. rewrite Hp in H.
  destruct (Argus_Thread_Update_iter hd os mem s) as [[s1 tr1] | f] eqn:Hi;
    cbn [bind fst snd] in H; [| discriminate].
  destruct (Argus_Thread_Update hd env s1) as [[s2 tr2] | f] eqn:Hr;
    cbn [bind fst snd] in H; [| discriminate].
  injection H as <- <-. exists s1, tr1, tr2. repeat split; auto.
Qed.

(** The trace of the attach attempt holds calls on handles only. *)
Lemma attach_trace_handle_calls (os : Os) (as_ : ArgusState) :
  forallb is_handle_call (snd (attach_if_needed os as_)) = true.
Proof.
  unfold attach_if_needed. destruct (initialized as_); [reflexivity |].
  unfold Argus_Init, Argus_Init_fail, Argus_Deinit.
  cbn [set_file set_data set_dataMutex set_initialized file data dataMutex
       initialized].
  destruct (os_OpenFileMappingW os =? 0) eqn:Ef.
  { cbn [snd fst]. rewrite !forallb_app. cbn.
    destruct (dataMutex as_ =? 0), (data as_ =? 0); reflexivity. }
  destruct (os_MapViewOfFile os (os_OpenFileMappingW os) =? 0) eqn:Ed.
  { cbn [snd fst]. rewrite !forallb_app. cbn. rewrite ?Ef.
    destruct (dataMutex as_ =? 0), (data as_ =? 0); reflexivity. }
  destruct (os_OpenMutexW os =? 0) eqn:Em.
  { cbn [snd fst]. rewrite !forallb_app. cbn. rewrite ?Ef, ?Ed. reflexivity. }
  reflexivity.
Qed.

Lemma attach_if_needed_initialized (os : Os) (as_ : ArgusState) :
  initialized as_ = true -> attach_if_needed os as_ = (as_, []).
Proof. intros H. unfold attach_if_needed. now rewrite H. Qed.

(** An iteration leaves [poll] and the thread handle alone, and the handle
    too once it is initialized. *)
Lemma iter_frame (hd : Headers) (os : Os) (mem : ArgusMonitorData) (s s' : State)
    (tr : list Event) :
  Argus_Thread_Update_iter hd os mem s = Ok (s', tr) ->
  poll (thread s') = poll (thread s)
  /\ thread_h (thread s') = thread_h (thread s)
  /\ (initialized (argus s) = true ->
      argus s' = argus s /\ filter is_handle_call tr = []).
Proof.
  intros H. destruct (iter_Ok_inv _ _ _ _ _ _ H) as (Hd & Ha & Hcases).
  assert (Hts : poll (thread s') = poll (thread s)
                /\ thread_h (thread s') = thread_h (thread s)).
  { destruct Hcases as [(_ & -> & _) | [(_ & _ & -> & _) | (_ & _ & Hf & _)]];
      [auto | auto |].
    destruct (FindSensor_result _ _ _ _ _ Hf) as [-> | (k & r & -> & _)]; auto. }
  destruct Hts as [Hp Hh]. repeat split; auto.
  - rewrite Ha. now rewrite attach_if_needed_initialized.
  - rewrite attach_if_needed_initialized in Hcases by assumption.
    destruct Hcases as [(_ & _ & ->) | [(_ & _ & _ & ->) | (_ & _ & _ & ->)]];
      reflexivity.
Qed.

(** X4: the poller loop never writes the run flag or the thread handle, and
    once the handle is initialized it never attaches, detaches or otherwise
    touches a handle again: a run that completes leaves them as they were. *)
Theorem X4_poller_frame (hd : Headers) (env : list (Os * ArgusMonitorData)) :
  forall (s s' : State) (tr : list Event),
    Argus_Thread_Update hd env s = Ok (s', tr) ->
    poll (thread s') = poll (thread s)
    /\ thread_h (thread s') = thread_h (thread s)
    /\ (initialized (argus s) = true ->
        argus s' = argus s /\ filter is_handle_call tr = []).
Proof.
  induction env as [| [os mem] env IH]; intros s s' tr H.
  - injection H as <- <-. auto.
  - destruct (poll (thread s)) eqn:Hp.
    + destruct (run_cons_inv _ _ _ _ _ _ _ Hp H) as (s1 & tr1 & tr2 & Hi & Hr & ->).
      destruct (iter_frame _ _ _ _ _ _ Hi) as (Hp1 & Hh1 & Hi1).
      destruct (IH _ _ _ Hr) as (Hp2 & Hh2 & Hi2).
      split; [congruence |]. split; [congruence |].
      intros Hini. destruct (Hi1 Hini) as [Ha1 Hf1].
      rewrite Ha1 in Hi2. destruct (Hi2 Hini) as [Ha2 Hf2].
      split; [congruence |]. rewrite filter_app, Hf1, Hf2. reflexivity.
    + rewrite run_stopped in H by exact Hp. injection H as <- <-. auto.
Qed.

(** X4 at work: an unresolved poller resolves, then polls once more. *)
Lemma X4_witness :
  exists s' tr,
    Argus_Thread_Update sdk [(os_present, seg_running); (os_present, seg_running)]
      st_unresolved = Ok (s', tr)
    /\ poll (thread s') = true
    /\ thread_h (thread s') = 0x40
    /\ argus s' = handle_attached
    /\ filter is_handle_call tr = [].
Proof.
  eexists. eexists. split; [reflexivity |].
  destruct (X4_poller_frame sdk
              [(os_present, seg_running); (os_present, seg_running)]
              st_unresolved _ _ eq_refl) as (Hp & Hh & Hi).
  destruct (Hi eq_refl) as [Ha Hf].
  repeat split; assumption.
Defined.

Lemma handle_calls_no_sleep (l : list Event) :
  forallb is_handle_call l = true -> filter is_sleep l = [].
Proof.
  induction l as [| ev l IH]; intros Hall; [reflexivity |].
  cbn [forallb] in Hall. apply andb_true_iff in Hall as [Hev Hl].
  destruct ev; try discriminate Hev; cbn [filter is_sleep]; auto.
Qed.

Lemma iter_sleeps (hd : Headers) (os : Os) (mem : ArgusMonitorData) (s s' : State)
    (tr : list Event) :
  Argus_Thread_Update_iter hd os mem s = Ok (s', tr) ->
  filter is_sleep tr = [EvSleep 250].
Proof.
  intros H. destruct (iter_Ok_inv _ _ _ _ _ _ H) as (_ & _ & Hcases).
  pose proof (handle_calls_no_sleep _ (attach_trace_handle_calls os (argus s)))
    as Hno.
  destruct Hcases as [(_ & _ & ->) | [(_ & _ & _ & ->) | (_ & _ & _ & ->)]];
    rewrite filter_app, Hno; reflexivity.
Qed.

(** X5: a run of the poller that completes with [poll] set goes through every
    iteration it is given and sleeps exactly once per iteration, 250 ms each
    time, whatever the iteration did. *)
Theorem X5_one_sleep_per_iteration (hd : Headers)
    (env : list (Os * ArgusMonitorData)) :
  forall (s s' : State) (tr : list Event),
    poll (thread s) = true ->
    Argus_Thread_Update hd env s = Ok (s', tr) ->
    filter is_sleep tr = repeat (EvSleep 250) (List.length env).
Proof.
  induction env as [| [os mem] env IH]; intros s s' tr Hp H.
  - injection H as <- <-. reflexivity.
  - destruct (run_cons_inv _ _ _ _ _ _ _ Hp H) as (s1 & tr1 & tr2 & Hi & Hr & ->).
    destruct (iter_frame _ _ _ _ _ _ Hi) as (Hp1 & _).
    rewrite filter_app, (iter_sleeps _ _ _ _ _ _ Hi).
    rewrite (IH s1 s' tr2) by congruence. reflexivity.
Qed.

(** X5 at work: two iterations, the first of which runs the locator. *)
Lemma X5_witness :
  exists s' tr,
    Argus_Thread_Update sdk [(os_present, seg_running); (os_present, seg_running)]
      st_unresolved = Ok (s', tr)
    /\ filter is_sleep tr = [EvSleep 250; EvSleep 250].
Proof.
  eexists. eexists. split; [reflexivity |].
  exact (X5_one_sleep_per_iteration sdk
           [(os_present, seg_running); (os_present, seg_running)]
           st_unresolved _ _ eq_refl eq_refl).
Defined.

Lemma mutex_ok_handle_calls (a b : list Event) (holding : option HANDLE) :
  forallb is_handle_call a = true ->
  mutex_ok holding (a ++ b) = mutex_ok holding b.
Proof.
  induction a as [| ev a IH]; intros Hall; [reflexivity |].
  cbn in Hall. apply andb_true_iff in Hall as [Hev Ha].
  destruct ev; try discriminate; cbn [app mutex_ok]; auto.
Qed.

Lemma mutex_ok_app (a b : list Event) :
  forall holding,
    mutex_ok holding a = true ->
    mutex_ok holding (a ++ b) = mutex_ok None b.
Proof.
  induction a as [| ev a IH]; intros holding H.
  - destruct holding; [discriminate | reflexivity].
  - destruct ev; cbn [app mutex_ok] in *; auto.
    + destruct holding; [discriminate |].
      apply andb_true_iff in H as [-> H]. cbn. auto.
    + destruct holding as [h' |]; [| discriminate].
      apply andb_true_iff in H as [-> H]. cbn. auto.
    + destruct holding; [discriminate |]. auto.
Qed.

Lemma consistent_mapped_mutex (s : ArgusState) :
  consistent s -> data s <> 0 -> dataMutex s <> 0.
Proof.
  intros [(_ & _ & _ & Hm) | ->] Hd; [exact Hm | now cbn in Hd].
Qed.

Lemma iter_consistent (hd : Headers) (os : Os) (mem : ArgusMonitorData)
    (s s' : State) (tr : list Event) :
  consistent (argus s) ->
  Argus_Thread_Update_iter hd os mem s = Ok (s', tr) ->
  attached (argus s').
Proof.
  intros Hc H. destruct (iter_Ok_inv _ _ _ _ _ _ H) as (Hd & Ha & _).
  rewrite Ha.
  destruct (attach_if_needed_consistent os (argus s) Hc) as [Hat | Hz];
    [exact Hat |].
  rewrite Hz in Hd. now cbn in Hd.
Qed.

Lemma iter_mutex_ok (hd : Headers) (os : Os) (mem : ArgusMonitorData)
    (s s' : State) (tr : list Event) :
  consistent (argus s) ->
  Argus_Thread_Update_iter hd os mem s = Ok (s', tr) ->
  mutex_ok None tr = true.
Proof.
  intros Hc H. destruct (iter_Ok_inv _ _ _ _ _ _ H) as (Hd & Ha & Hcases).
  pose proof (consistent_mapped_mutex _
                (attach_if_needed_consistent os (argus s) Hc) Hd) as Hm.
  destruct Hcases as [(_ & _ & ->) | [(_ & _ & _ & ->) | (_ & _ & _ & ->)]];
    rewrite mutex_ok_handle_calls by apply attach_trace_handle_calls;
    try reflexivity.
  cbn. apply Z.eqb_neq in Hm. rewrite Hm, Z.eqb_refl. reflexivity.
Qed.

(** X6: in a run of the poller that completes, started on a handle that is
    fully attached or fully detached, the mutex is only ever waited for through
    a non-null handle, every wait is followed by the release of that same
    handle before the iteration sleeps, and the mutex is not held at the end. *)
Theorem X6_poller_mutex_discipline (hd : Headers)
    (env : list (Os * ArgusMonitorData)) :
  forall (s s' : State) (tr : list Event),
    consistent (argus s) ->
    Argus_Thread_Update hd env s = Ok (s', tr) ->
    mutex_ok None tr = true.
Proof.
  induction env as [| [os mem] env IH]; intros s s' tr Hc H.
  - injection H as <- <-. reflexivity.
  - destruct (poll (thread s)) eqn:Hp.
    + destruct (run_cons_inv _ _ _ _ _ _ _ Hp H) as (s1 & tr1 & tr2 & Hi & Hr & ->).
      rewrite mutex_ok_app by (eapply iter_mutex_ok; eauto).
      apply (IH s1 s' tr2); [| exact Hr].
      left. eapply iter_consistent; eauto.
    + rewrite run_stopped in H by exact Hp. injection H as <- <-. reflexivity.
Qed.

(** X6 at work: two iterations, the first of which takes the mutex. *)
Lemma X6_witness :
  Argus_Thread_Update sdk [(os_present, seg_running); (os_present, seg_running)]
    st_unresolved
  = Ok (st_resolved,
        [EvWaitForSingleObject 0x20; EvReleaseMutex 0x20; EvSleep 250; EvSleep 250])
  /\ mutex_ok None
       [EvWaitForSingleObject 0x20; EvReleaseMutex 0x20; EvSleep 250; EvSleep 250]
     = true.
Proof.
  split; [reflexivity |].
  apply (X6_poller_mutex_discipline sdk
           [(os_present, seg_running); (os_present, seg_running)]
           st_unresolved st_resolved).
  - left. repeat split; first [reflexivity | cbn; lia].
  - reflexivity.
Defined.

(* ------------------------------------------------------------------------- *)
(** ** Further properties: resources over the load/unload cycle *)

Lemma attach_if_needed_accounting (pre : list Resource) (os : Os) (s : ArgusState) :
  pre = [] \/ (exists th, pre = [RHandle th]) ->
  consistent s ->
  held_after (pre ++ owned s) (snd (attach_if_needed os s))
  = pre ++ owned (fst (attach_if_needed os s)).
Proof.
  intros Hpre Hc. unfold attach_if_needed.
  destruct (initialized s) eqn:Hi; [reflexivity |].
  rewrite (consistent_not_initialized s Hc Hi).
  unfold Argus_Init, Argus_Init_fail, owned, Argus_Deinit. cbn.
  remember (os_OpenFileMappingW os) as f eqn:Ef.
  remember (os_MapViewOfFile os f) as d eqn:Ed.
  remember (os_OpenMutexW os) as m eqn:Em.
  clear Ef Ed Em.
  destruct (Z.eqb_spec f 0) as [Hf | Hf]; cbn.
  { rewrite Hf. cbn. reflexivity. }
  destruct (Z.eqb_spec d 0) as [Hd | Hd]; cbn.
  { destruct (Z.eqb_spec f 0); [contradiction |]. rewrite Hd. cbn.
    rewrite app_nil_r.
    destruct Hpre as [-> | [th ->]]; cbn.
    - now rewrite Z.eqb_refl.
    - destruct (Z.eqb_spec f th) as [-> | Hne]; [reflexivity |].
      cbn. now rewrite Z.eqb_refl. }
  destruct (Z.eqb_spec m 0) as [Hm | Hm]; cbn.
  { destruct (Z.eqb_spec f 0); [contradiction |].
    destruct (Z.eqb_spec d 0); [contradiction |]. rewrite Hm. cbn.
    rewrite app_nil_r.
    destruct Hpre as [-> | [th ->]]; cbn.
    - rewrite !Z.eqb_refl. reflexivity.
    - rewrite !Z.eqb_refl.
      destruct (Z.eqb_spec f th) as [-> | Hne]; reflexivity. }
  destruct (Z.eqb_spec f 0); [contradiction |].
  destruct (Z.eqb_spec d 0); [contradiction |].
  destruct (Z.eqb_spec m 0); [contradiction |].
  cbn. rewrite app_nil_r, <- !app_assoc. reflexivity.
Qed.

Lemma held_by_prefix (s : State) :
  exists pre, (pre = [] \/ exists th, pre = [RHandle th])
              /\ forall s', thread_h (thread s') = thread_h (thread s) ->
                            held_by s' = pre ++ owned (argus s').
Proof.
  exists (if thread_h (thread s) =? 0 then [] else [RHandle (thread_h (thread s))]).
  split.
  - destruct (thread_h (thread s) =? 0); [now left | right; eauto].
  - intros s' Hh. unfold held_by. now rewrite Hh.
Qed.

Lemma iter_accounting (hd : Headers) (os : Os) (mem : ArgusMonitorData)
    (s s' : State) (tr : list Event) :
  consistent (argus s) ->
  Argus_Thread_Update_iter hd os mem s = Ok (s', tr) ->
  held_after (held_by s) tr = held_by s'.
Proof.
  intros Hc H.
  destruct (iter_frame _ _ _ _ _ _ H) as (_ & Hh & _).
  destruct (iter_Ok_inv _ _ _ _ _ _ H) as (_ & Ha & Hcases).
  destruct (held_by_prefix s) as (pre & Hpre & Hheld).
  rewrite (Hheld s eq_refl), (Hheld s' Hh), Ha.
  destruct Hcases as [(_ & _ & ->) | [(_ & _ & _ & ->) | (_ & _ & _ & ->)]];
    rewrite held_after_app, attach_if_needed_accounting by assumption;
    reflexivity.
Qed.

Lemma run_accounting (hd : Headers) (env : list (Os * ArgusMonitorData)) :
  forall (s s' : State) (tr : list Event),
    consistent (argus s) ->
    Argus_Thread_Update hd env s = Ok (s', tr) ->
    held_after (held_by s) tr = held_by s' /\ consistent (argus s').
Proof.
  induction env as [| [os mem] env IH]; intros s s' tr Hc H.
  - injection H as <- <-. auto.
  - destruct (poll (thread s)) eqn:Hp.
    + destruct (run_cons_inv _ _ _ _ _ _ _ Hp H) as (s1 & tr1 & tr2 & Hi & Hr & ->).
      assert (Hc1 : consistent (argus s1))
        by (left; eapply iter_consistent; eauto).
      destruct (IH _ _ _ Hc1 Hr) as [Hacc Hc'].
      split; [| exact Hc'].
      now rewrite held_after_app, (iter_accounting _ _ _ _ _ _ Hc Hi).
    + rewrite run_stopped in H by exact Hp. injection H as <- <-. auto.
Qed.

Lemma detach_accounting (os : Os) (s : State) :
  DllMain os DLL_PROCESS_DETACH s
  = (true, State_zero,
     EvWaitForSingleObject (thread_h (thread s))
     :: EvCloseHandle (thread_h (thread s)) :: snd (Argus_Deinit (argus s)))
  /\ held_after (held_by s) (snd (DllMain os DLL_PROCESS_DETACH s)) = [].
Proof.
  split; [reflexivity |].
  unfold DllMain, Argus_Thread_Deinit, held_by. cbn.
  destruct (Z.eqb_spec (thread_h (thread s)) 0) as [Hz | Hnz]; cbn.
  - rewrite Hz. cbn. rewrite release_null_owned.
    apply Argus_Deinit_releases_owned.
  - rewrite Z.eqb_refl. apply Argus_Deinit_releases_owned.
Qed.

Lemma DllMain_attach_created (os : Os) (s : State) :
  os_CreateThread os <> 0 ->
  DllMain os DLL_PROCESS_ATTACH s
  = (true,
     {| argus := argus s;
        thread := set_thread_h (set_poll (thread s) true) (os_CreateThread os) |},
     [EvCreateThread (os_CreateThread os)]).
Proof.
  intros Hnz. unfold DllMain, Argus_Thread_Init. cbn.
  destruct (Z.eqb_spec (os_CreateThread os) 0); [contradiction | reflexivity].
Qed.

Lemma DllMain_attach_failed (os : Os) :
  os_CreateThread os = 0 ->
  DllMain os DLL_PROCESS_ATTACH State_zero
  = (false, State_zero,
     [EvCreateThread 0; EvWaitForSingleObject 0; EvCloseHandle 0]).
Proof.
  intros Hz. unfold DllMain, Argus_Thread_Init, Argus_Thread_Deinit. cbn.
  rewrite Hz. reflexivity.
Qed.

(** X7: over a whole load, poll, unload cycle that completes, whatever the
    operating system and the publisher did at each iteration, the plugin ends
    in the value-initialised state with every handle and view it acquired
    released; the cycle reports success exactly when the poller thread could
    be created. *)
Theorem X7_load_poll_unload_releases_everything (hd : Headers) (os : Os)
    (env : list (Os * ArgusMonitorData)) (ok : bool) (s : State) (tr : list Event) :
  load_poll_unload hd os env = Ok (ok, s, tr) ->
  s = State_zero
  /\ held_after [] tr = []
  /\ (ok = true <-> os_CreateThread os <> 0).
Proof.
  unfold load_poll_unload.
  destruct (Z.eq_dec (os_CreateThread os) 0) as [Hz | Hnz].
  - rewrite (DllMain_attach_failed os Hz). intros [= <- <- <-].
    repeat split; try discriminate. intros H. contradiction.
  - rewrite (DllMain_attach_created os State_zero Hnz).
    set (s1 := {| argus := argus State_zero;
                  thread := set_thread_h (set_poll (thread State_zero) true)
                              (os_CreateThread os) |}).
    destruct (Argus_Thread_Update hd env s1) as [[s2 tr2] | f] eqn:Hr;
      cbn [bind fst snd]; [| intros Hx; discriminate Hx].
    destruct (detach_accounting os s2) as [Hd Hacc]. rewrite Hd in Hacc |- *.
    cbn [snd] in Hacc. intros [= <- <- <-].
    split; [reflexivity |]. split; [| tauto].
    assert (Hc : consistent (argus s1)) by (right; reflexivity).
    destruct (run_accounting _ _ _ _ _ Hc Hr) as [Hrun _].
    assert (Hs1 : held_by s1 = [RHandle (os_CreateThread os)]).
    { unfold held_by, s1. cbn.
      destruct (Z.eqb_spec (os_CreateThread os) 0); [contradiction |].
      reflexivity. }
    cbn [app held_after].
    destruct (Z.eqb_spec (os_CreateThread os) 0); [contradiction |].
    cbn [app]. rewrite held_after_app, <- Hs1, Hrun. exact Hacc.
Qed.

(** X7 at work: load, one iteration with the publisher running, unload. *)
Lemma X7_witness :
  State_zero = State_zero
  /\ held_after []
       [EvCreateThread 0x40;
        EvOpenFileMappingW 0x10; EvMapViewOfFile 0x10 0x7000; EvOpenMutexW 0x20;
        EvWaitForSingleObject 0x20; EvReleaseMutex 0x20; EvSleep 250;
        EvWaitForSingleObject 0x40; EvCloseHandle 0x40;
        EvCloseHandle 0x20; EvUnmapViewOfFile 0x7000; EvCloseHandle 0x10] = []
  /\ (true = true <-> os_CreateThread os_present <> 0).
Proof.
  apply (X7_load_poll_unload_releases_everything sdk os_present
           [(os_present, seg_running)]).
  reflexivity.
Defined.

(* ------------------------------------------------------------------------- *)
(** ** Further properties: restart detection and resolution *)

Lemma iter_steady (hd : Headers) (os : Os) (mem : ArgusMonitorData) (s : State) :
  initialized (argus s) = true -> data (argus s) <> 0 ->
  steady s mem = true ->
  Argus_Thread_Update_iter hd os mem s = Ok (s, [EvSleep 250]).
Proof.
  intros Hi Hd Hst.
  rewrite iter_mapped by (rewrite attach_if_needed_initialized; assumption).
  fold (steady s mem). rewrite Hst, attach_if_needed_initialized by exact Hi.
  cbn. apply andb_true_iff in Hst as [Hav _].
  unfold set_dataAvailable. rewrite <- Hav at 1. rewrite ThreadState_eta.
  now destruct s.
Qed.

(** X8: once resolved, the poller compares every counter it reads with the
    counter recorded at the last resolution, which the steady iterations do
    not advance.  Over any sequence of iterations whose counters are not below
    that value, the state stays exactly as it was and only [Sleep] is called,
    even when the counter goes down from one poll to the next. *)
Theorem X8_counter_not_advanced_in_steady_state (hd : Headers)
    (env : list (Os * ArgusMonitorData)) (s : State) :
  poll (thread s) = true ->
  initialized (argus s) = true -> data (argus s) <> 0 ->
  dataAvailable (thread s) = true ->
  Forall (fun e => lastCycleCounter (thread s) <= CycleCounter (snd e)) env ->
  Argus_Thread_Update hd env s
  = Ok (s, repeat (EvSleep 250) (List.length env)).
Proof.
  intros Hp Hi Hd Hav Hall.
  induction Hall as [| [os mem] env Hle Hall IH]; [reflexivity |].
  cbn [Argus_Thread_Update]. rewrite Hp.
  rewrite iter_steady; try assumption.
  - cbn [bind fst snd]. rewrite IH. reflexivity.
  - unfold steady. rewrite Hav. cbn in Hle. apply Z.leb_le in Hle.
    now rewrite Hle.
Qed.

(** X8 at work: resolved at counter 10, the poller reads 1000 and then 20. *)
Lemma X8_witness :
  Argus_Thread_Update sdk env_counter_falls st_resolved
  = Ok (st_resolved, [EvSleep 250; EvSleep 250]).
Proof.
  exact (X8_counter_not_advanced_in_steady_state sdk env_counter_falls st_resolved
           eq_refl eq_refl ltac:(cbn; lia) eq_refl
           ltac:(repeat constructor; cbn; lia)).
Defined.

(** X9: after any iteration that completes, the availability flag is set
    exactly when the iteration was steady or the signature is [0x4D677241],
    and the last-seen counter is the old one when the iteration was steady and
    the counter just read otherwise; so a set flag always comes with a
    last-seen counter not above the counter just read. *)
Theorem X9_flag_and_counter_after_iteration (hd : Headers) (os : Os)
    (mem : ArgusMonitorData) (s s' : State) (tr : list Event) :
  Argus_Thread_Update_iter hd os mem s = Ok (s', tr) ->
  dataAvailable (thread s') = (steady s mem || (Signature mem =? 0x4D677241))
  /\ lastCycleCounter (thread s')
     = (if steady s mem then lastCycleCounter (thread s) else CycleCounter mem)
  /\ (dataAvailable (thread s') = true ->
      lastCycleCounter (thread s') <= CycleCounter mem).
Proof.
  intros H. destruct (iter_Ok_inv _ _ _ _ _ _ H) as (_ & _ & Hcases).
  assert (Hmain :
    dataAvailable (thread s') = (steady s mem || (Signature mem =? 0x4D677241))
    /\ lastCycleCounter (thread s')
       = (if steady s mem then lastCycleCounter (thread s) else CycleCounter mem)).
  { destruct Hcases as [(Hst & -> & _) | [(Hst & Hs & -> & _) | (Hst & Hs & Hf & _)]];
      rewrite Hst.
    - apply andb_true_iff in Hst as [Hav _]. now rewrite Hav.
    - apply Z.eqb_neq in Hs. rewrite Hs. auto.
    - apply Z.eqb_eq in Hs. rewrite Hs.
      destruct (FindSensor_result _ _ _ _ _ Hf) as [-> | (k & r & -> & _)]; auto. }
  destruct Hmain as [Hflag Hlast]. repeat split; auto.
  intros _. rewrite Hlast.
  destruct (steady s mem) eqn:Hst; [| lia].
  apply andb_true_iff in Hst as [_ Hle]. now apply Z.leb_le.
Qed.

(** X9 at work: a restart detected on a resolved state. *)
Lemma X9_witness :
  exists s' tr,
    Argus_Thread_Update_iter sdk os_present seg_restarted st_resolved = Ok (s', tr)
    /\ dataAvailable (thread s') = true
    /\ lastCycleCounter (thread s') = 3.
Proof.
  eexists. eexists. split; [reflexivity |].
  destruct (X9_flag_and_counter_after_iteration
              sdk os_present seg_restarted st_resolved _ _ eq_refl) as (Hf & Hl & _).
  split; [exact Hf | exact Hl].
Defined.

Lemma index_in_bounds {A} (arr : list A) (k : Z) :
  0 <= k < Z.of_nat (List.length arr) -> exists a, index arr k = Ok a.
Proof.
  intros Hk. destruct (nth_error arr (Z.to_nat k)) as [a |] eqn:Hn.
  - exists a. apply index_Ok_iff. split; [lia | exact Hn].
  - apply nth_error_None in Hn. lia.
Qed.

Lemma index_Ok_bounds {A} (arr : list A) (k : Z) (a : A) :
  index arr k = Ok a -> 0 <= k < Z.of_nat (List.length arr).
Proof.
  intros H. apply index_Ok_iff in H as [H0 Hn].
  assert (Z.to_nat k < List.length arr)%nat
    by (apply nth_error_Some; congruence).
  lia.
Qed.

(** The early exit of the loop: it stops at the first matching record and
    reads nothing beyond it. *)
Lemma FindSensor_loop_stops_at records label off ts (k : Z) :
  0 <= off -> Z.of_nat (List.length records) <= 2 ^ 32 ->
  (exists r, index records k = Ok r /\ wcscmp (Label r) label = 0) ->
  forall (n : nat) (i : Z),
    0 <= i -> off + i <= k < off + i + Z.of_nat n ->
    (forall j, off + i <= j < k ->
       exists r, index records j = Ok r /\ wcscmp (Label r) label <> 0) ->
    FindSensor_loop records label off i n ts = Ok (set_waterSensor ts (Some k)).
Proof.
  intros Hoff Hlen (rk & Hrk & Hmatch).
  pose proof (index_Ok_bounds _ _ _ Hrk) as Hkb.
  induction n as [| n IH]; intros i Hi Hk Hbefore; [lia |].
  cbn [FindSensor_loop]. unfold wrap_u32. rewrite Z.mod_small by lia.
  destruct (Z.eq_dec (off + i) k) as [-> | Hne].
  - rewrite Hrk. cbn [bind]. apply Z.eqb_eq in Hmatch. now rewrite Hmatch.
  - destruct (Hbefore (off + i)) as (r & Hr & Hnm); [lia |].
    rewrite Hr. cbn [bind]. apply Z.eqb_neq in Hnm. rewrite Hnm.
    apply IH; [lia | lia |].
    intros j Hj. apply Hbefore. lia.
Qed.

(** The loop running off the end of the record array. *)
Lemma FindSensor_loop_overruns records label off ts :
  0 <= off -> Z.of_nat (List.length records) < 2 ^ 32 ->
  forall (n : nat) (i : Z),
    0 <= i ->
    off + i <= Z.of_nat (List.length records) < off + i + Z.of_nat n ->
    (forall j r, off + i <= j -> index records j = Ok r ->
       wcscmp (Label r) label <> 0) ->
    FindSensor_loop records label off i n ts = Crash OutOfBounds.
Proof.
  intros Hoff Hlen. induction n as [| n IH]; intros i Hi Hb Hnone; [lia |].
  cbn [FindSensor_loop]. unfold wrap_u32. rewrite Z.mod_small by lia.
  destruct (index records (off + i)) as [r | f] eqn:Hr; cbn [bind].
  - pose proof (index_Ok_bounds _ _ _ Hr) as Hrb.
    pose proof (Hnone _ _ (Z.le_refl _) Hr) as Hnm.
    apply Z.eqb_neq in Hnm. rewrite Hnm.
    apply IH; [lia | lia |].
    intros j r' Hj. apply Hnone. lia.
  - unfold index in Hr. destruct (off + i <? 0); [congruence |].
    destruct (nth_error records (Z.to_nat (off + i))); congruence.
Qed.

(** X10: the locator stops at the first match.  When some record [k] of the
    category's range matches and the records of the range before it exist
    and do not match, the field [waterSensor] comes out as [Some k] and the
    other fields as they were, whatever follows, even if the count announced
    by the segment reaches beyond the record array. *)
Theorem X10_FindSensor_stops_at_first_match
    (d : ArgusMonitorData) (cat : i32) (label : list wchar_t) (ts : ThreadState)
    (off cnt k : Z) :
  index (OffsetForSensorType d) cat = Ok off ->
  index (SensorCount d) cat = Ok cnt ->
  0 <= off -> off <= k < off + cnt ->
  Z.of_nat (List.length (SensorData d)) <= 2 ^ 32 ->
  (exists r, index (SensorData d) k = Ok r /\ wcscmp (Label r) label = 0) ->
  (forall j, off <= j < k ->
     exists r, index (SensorData d) j = Ok r /\ wcscmp (Label r) label <> 0) ->
  FindSensor d cat label ts
  = Ok {| poll := poll ts;
          dataAvailable := dataAvailable ts;
          lastCycleCounter := lastCycleCounter ts;
          thread_h := thread_h ts;
          waterSensor := Some k |}.
Proof.
  intros Ho Hc Hoff Hk Hlen Hm Hbefore.
  unfold FindSensor. rewrite Ho, Hc. cbn [bind].
  rewrite (FindSensor_loop_stops_at (SensorData d) label off ts k);
    try assumption; try lia.
  - reflexivity.
  - intros j Hj. apply Hbefore. lia.
Qed.

(** X10 at work: the temperature category announced with 50 records in an
    array of 3; "T Sensor" is found at index 2 before the array ends. *)
Lemma X10_witness :
  FindSensor
    {| Signature := 0x4D677241; CycleCounter := 1;
       OffsetForSensorType := [0; 1; 0]; SensorCount := [0; 50; 1];
       SensorData := SensorData seg_running |}
    1 (L "T Sensor") ThreadState_zero
  = Ok {| poll := false; dataAvailable := false; lastCycleCounter := 0;
          thread_h := 0; waterSensor := Some 2 |}.
Proof.
  apply (X10_FindSensor_stops_at_first_match _ 1 (L "T Sensor") ThreadState_zero
           1 50 2); try reflexivity; try (cbn; lia).
  - eexists. split; reflexivity.
  - intros j Hj. assert (j = 1) as -> by lia.
    eexists. split; [reflexivity | discriminate].
Defined.

(** X11: the locator does not check the count against the size of the record
    array.  When the range announced for the category reaches beyond the
    array and no record from the offset to the end of the array matches, the
    scan reads past the last record. *)
Theorem X11_FindSensor_overruns_on_oversized_count
    (d : ArgusMonitorData) (cat : i32) (label : list wchar_t) (ts : ThreadState)
    (off cnt : Z) :
  index (OffsetForSensorType d) cat = Ok off ->
  index (SensorCount d) cat = Ok cnt ->
  0 <= off <= Z.of_nat (List.length (SensorData d)) ->
  Z.of_nat (List.length (SensorData d)) < off + cnt ->
  Z.of_nat (List.length (SensorData d)) < 2 ^ 32 ->
  (forall j r, off <= j -> index (SensorData d) j = Ok r ->
     wcscmp (Label r) label <> 0) ->
  FindSensor d cat label ts = Crash OutOfBounds.
Proof.
  intros Ho Hc Hoff Hover Hlen Hnone.
  unfold FindSensor. rewrite Ho, Hc. cbn [bind].
  apply FindSensor_loop_overruns; try assumption; try lia.
  intros j r Hj. apply Hnone. lia.
Qed.

(** X11 at work: three records, the category announced as [1, 4), no "FAN". *)
Lemma X11_witness :
  FindSensor
    {| Signature := 0x4D677241; CycleCounter := 1;
       OffsetForSensorType := [0; 1; 0]; SensorCount := [0; 3; 1];
       SensorData := SensorData seg_running |}
    1 (L "FAN") ThreadState_zero
  = Crash OutOfBounds.
Proof.
  apply (X11_FindSensor_overruns_on_oversized_count _ 1 (L "FAN")
           ThreadState_zero 1 3); try reflexivity; try (cbn; lia).
  intros j r Hj Hr.
  pose proof (index_Ok_bounds _ _ _ Hr) as Hb. cbn in Hb.
  assert (j = 1 \/ j = 2) as [-> | ->] by lia;
    cbn in Hr; injection Hr as <-; discriminate.
Defined.

Lemma FindSensor_first_match (d : ArgusMonitorData) (cat : i32)
    (label : list wchar_t) (ts : ThreadState) (off cnt : Z) :
  index (OffsetForSensorType d) cat = Ok off ->
  index (SensorCount d) cat = Ok cnt ->
  0 <= off -> 0 <= cnt ->
  off + cnt <= Z.of_nat (List.length (SensorData d)) ->
  Z.of_nat (List.length (SensorData d)) <= 2 ^ 32 ->
  FindSensor d cat label ts
  = Ok match first_match_in_range (SensorData d) off cnt label with
       | Some k => set_waterSensor ts (Some k)
       | None => ts
       end.
Proof.
  intros Ho Hc Hoff Hcnt Hb Hlen.
  unfold FindSensor. rewrite Ho, Hc. cbn [bind].
  rewrite FindSensor_loop_first_index by lia.
  rewrite Z.add_0_r. unfold first_match_in_range.
  destruct (first_index _ _); reflexivity.
Qed.

Lemma first_match_in_range_bounds (records : list ArgusMonitorSensorData)
    (off cnt k : Z) (label : list wchar_t) :
  0 <= off -> 0 <= cnt -> off + cnt <= Z.of_nat (List.length records) ->
  first_match_in_range records off cnt label = Some k ->
  off <= k < off + cnt.
Proof.
  intros Hoff Hcnt Hb H. unfold first_match_in_range in H.
  destruct (first_index _ _) as [j |] eqn:Hj; [| discriminate].
  injection H as <-.
  destruct (first_index_Some _ _ _ Hj) as (Hr & _).
  rewrite length_firstn, length_skipn in Hr. lia.
Qed.

(** X12: resolution end to end.  When an iteration is not steady, reads a
    segment with the right signature whose temperature range lies inside the
    record array, and that range holds a "T Sensor" record, first at index
    [k], the iteration completes with the flag set and [waterSensor] on
    record [k], and [GetSourceData] then reports the value of that record, or
    0 when that value is zero. *)
Theorem X12_resolution_exports_first_match (hd : Headers) (os : Os)
    (mem : ArgusMonitorData) (s : State) (off cnt k : Z) :
  steady s mem = false ->
  data (fst (attach_if_needed os (argus s))) <> 0 ->
  Signature mem = 0x4D677241 ->
  index (OffsetForSensorType mem) (SENSOR_TYPE_TEMPERATURE hd) = Ok off ->
  index (SensorCount mem) (SENSOR_TYPE_TEMPERATURE hd) = Ok cnt ->
  0 <= off -> 0 <= cnt ->
  off + cnt <= Z.of_nat (List.length (SensorData mem)) ->
  Z.of_nat (List.length (SensorData mem)) <= 2 ^ 32 ->
  first_match_in_range (SensorData mem) off cnt (L "T Sensor") = Some k ->
  exists s' tr r,
    Argus_Thread_Update_iter hd os mem s = Ok (s', tr)
    /\ dataAvailable (thread s') = true
    /\ lastCycleCounter (thread s') = CycleCounter mem
    /\ waterSensor (thread s') = Some k
    /\ index (SensorData mem) k = Ok r
    /\ forall dwIndex,
         GetSourceData dwIndex mem s'
         = Ok (if f64_truthy (Value r) then f32_of_f64 (Value r) else f32_zero).
Proof.
  intros Hst Hd Hsig Ho Hc Hoff Hcnt Hb Hlen Hk.
  pose proof (first_match_in_range_bounds _ _ _ _ _ Hoff Hcnt Hb Hk) as Hkb.
  destruct (index_in_bounds (SensorData mem) k) as [r Hr]; [lia |].
  rewrite iter_mapped by exact Hd. fold (steady s mem). rewrite Hst.
  cbn [negb]. unfold resolve.
  cbn [set_dataAvailable set_lastCycleCounter dataAvailable].
  apply Z.eqb_eq in Hsig. rewrite Hsig.
  rewrite (FindSensor_first_match mem _ _ _ off cnt) by assumption.
  rewrite Hk. cbn [bind fst snd].
  eexists. eexists. exists r. split; [reflexivity |].
  cbn [thread fst dataAvailable lastCycleCounter waterSensor set_waterSensor].
  repeat split; auto.
  intros dwIndex. unfold GetSourceData.
  cbn [thread fst waterSensor set_waterSensor].
  rewrite Hr. cbn [bind]. destruct (f64_truthy (Value r)); reflexivity.
Qed.

(** X12 at work: a restart after which "T Sensor" has moved to index 1. *)
Lemma X12_witness :
  exists s' tr r,
    Argus_Thread_Update_iter sdk os_present seg_moved st_resolved = Ok (s', tr)
    /\ dataAvailable (thread s') = true
    /\ lastCycleCounter (thread s') = CycleCounter seg_moved
    /\ waterSensor (thread s') = Some 1
    /\ index (SensorData seg_moved) 1 = Ok r
    /\ forall dwIndex,
         GetSourceData dwIndex seg_moved s'
         = Ok (if f64_truthy (Value r) then f32_of_f64 (Value r) else f32_zero).
Proof.
  apply (X12_resolution_exports_first_match sdk os_present seg_moved
           st_resolved 1 2 1);
    try reflexivity; cbn; lia.
Defined.

Lemma iter_sensor_in_bounds (hd : Headers) (os : Os) (mem : ArgusMonitorData)
    (s s' : State) (tr : list Event) :
  Argus_Thread_Update_iter hd os mem s = Ok (s', tr) ->
  sensor_in_bounds (Z.of_nat (List.length (SensorData mem))) (thread s) ->
  sensor_in_bounds (Z.of_nat (List.length (SensorData mem))) (thread s').
Proof.
  intros H Hin. destruct (iter_Ok_inv _ _ _ _ _ _ H) as (_ & _ & Hcases).
  destruct Hcases as [(_ & -> & _) | [(_ & _ & -> & _) | (_ & _ & Hf & _)]];
    [exact Hin | exact Hin |].
  destruct (FindSensor_result _ _ _ _ _ Hf) as [-> | (k & r & -> & Hk & _)];
    [exact Hin |].
  unfold sensor_in_bounds. cbn. eapply index_Ok_bounds; eauto.
Qed.

(** X13: the record array having a fixed size, [waterSensor] never leaves it.
    If it is null or inside the array before a run of the poller over
    segments of that size, it is null or inside the array after the run, and
    [GetSourceData] on any segment of that size returns a value rather than
    reading outside the array. *)
Theorem X13_waterSensor_stays_in_bounds (hd : Headers)
    (env : list (Os * ArgusMonitorData)) (n : Z) :
  forall (s s' : State) (tr : list Event),
    sensor_in_bounds n (thread s) ->
    Forall (fun e => Z.of_nat (List.length (SensorData (snd e))) = n) env ->
    Argus_Thread_Update hd env s = Ok (s', tr) ->
    sensor_in_bounds n (thread s')
    /\ forall (mem : ArgusMonitorData) (dwIndex : Z),
         Z.of_nat (List.length (SensorData mem)) = n ->
         exists v, GetSourceData dwIndex mem s' = Ok v.
Proof.
  assert (Hread : forall (s' : State), sensor_in_bounds n (thread s') ->
            forall (mem : ArgusMonitorData) (dwIndex : Z),
              Z.of_nat (List.length (SensorData mem)) = n ->
              exists v, GetSourceData dwIndex mem s' = Ok v).
  { intros s' Hin mem dwIndex Hn. unfold GetSourceData.
    unfold sensor_in_bounds in Hin.
    destruct (waterSensor (thread s')) as [k |]; [| eauto].
    destruct (index_in_bounds (SensorData mem) k) as [r Hr]; [lia |].
    rewrite Hr. cbn [bind]. destruct (f64_truthy (Value r)); eauto. }
  induction env as [| [os mem] env IH]; intros s s' tr Hin Hall H.
  - injection H as <- <-. auto.
  - destruct (poll (thread s)) eqn:Hp.
    + destruct (run_cons_inv _ _ _ _ _ _ _ Hp H) as (s1 & tr1 & tr2 & Hi & Hr & ->).
      inversion Hall as [| e env' Hn Hall']; subst. cbn [snd] in *.
      apply (IH s1 s' tr2); [| exact Hall' | exact Hr].
      eapply iter_sensor_in_bounds; eauto.
    + rewrite run_stopped in H by exact Hp. injection H as <- <-. auto.
Qed.

(** X13 at work: resolved on record 2 of three, polled across a restart. *)
Lemma X13_witness :
  exists v, GetSourceData 0 seg_running
              {| argus := handle_attached;
                 thread := {| poll := true; dataAvailable := true;
                              lastCycleCounter := 3; thread_h := 0x40;
                              waterSensor := Some 2 |} |} = Ok v.
Proof.
  refine (proj2 (X13_waterSensor_stays_in_bounds sdk
                   [(os_present, seg_restarted)] 3 st_resolved _ _
                   _ _ eq_refl) seg_running 0 eq_refl).
  - cbn. lia.
  - repeat constructor.
Defined.

(* ------------------------------------------------------------------------- *)
(** ** Further properties: labels and attachment *)

Lemma wcs_chars_eq (c : list wchar_t) :
  Forall (fun x => x <> 0) c ->
  forall l, wcs_chars l = c <-> l = c \/ exists rest, l = c ++ 0 :: rest.
Proof.
  induction 1 as [| y c Hy Hc IH]; intros [| x l]; cbn [wcs_chars app].
  - split; auto.
  - destruct (Z.eqb_spec x 0) as [-> | Hx]; split.
    + intros _. right. eauto.
    + reflexivity.
    + discriminate.
    + intros [H | [rest H]]; [discriminate | congruence].
  - split; [discriminate |]. intros [H | [rest H]]; discriminate.
  - destruct (Z.eqb_spec x 0) as [-> | Hx]; split.
    + discriminate.
    + intros [H | [rest H]]; congruence.
    + intros [= -> Hl]. apply IH in Hl as [-> | [rest ->]]; [now left |].
      right. eauto.
    + intros [[= -> ->] | [rest [= -> ->]]]; f_equal; apply IH; eauto.
Qed.

(** X14: the labels the locator accepts.  A record is taken for the water
    sensor exactly when its label array holds the eight characters
    "T Sensor" followed by the end of the array or by a NUL; what comes after
    the NUL is not looked at, and a longer or differently cased label is not
    accepted. *)
Theorem X14_accepted_labels (r : ArgusMonitorSensorData) :
  wcscmp (Label r) (L "T Sensor") = 0
  <-> Label r = L "T Sensor" \/ exists rest, Label r = L "T Sensor" ++ 0 :: rest.
Proof.
  rewrite wcscmp_zero_iff.
  change (wcs_chars (L "T Sensor")) with (L "T Sensor").
  apply wcs_chars_eq. repeat constructor; discriminate.
Qed.

(** X14 at work: the label as a NUL-terminated array with leftovers. *)
Lemma X14_witness :
  wcscmp (L "T Sensor" ++ 0 :: L "old label") (L "T Sensor") = 0.
Proof.
  apply (proj2 (X14_accepted_labels
                  {| Label := L "T Sensor" ++ 0 :: L "old label";
                     Value := f64_of_Z 0 |})).
  right. eexists. reflexivity.
Defined.

(** X15: an iteration completes only on a fully attached handle.  Started on
    a handle that is fully attached or fully detached, a completed iteration
    leaves the handle fully attached; when it started detached, the mapping
    object, the view and the mutex were all opened in that very iteration and
    the handle holds them. *)
Theorem X15_completed_iteration_is_attached (hd : Headers) (os : Os)
    (mem : ArgusMonitorData) (s s' : State) (tr : list Event) :
  consistent (argus s) ->
  Argus_Thread_Update_iter hd os mem s = Ok (s', tr) ->
  attached (argus s')
  /\ (initialized (argus s) = true -> argus s' = argus s)
  /\ (initialized (argus s) = false ->
      os_OpenFileMappingW os <> 0
      /\ os_MapViewOfFile os (os_OpenFileMappingW os) <> 0
      /\ os_OpenMutexW os <> 0
      /\ argus s' = {| initialized := true;
                       file := os_OpenFileMappingW os;
                       data := os_MapViewOfFile os (os_OpenFileMappingW os);
                       dataMutex := os_OpenMutexW os |}).
Proof.
  intros Hc H. split; [eapply iter_consistent; eauto |].
  destruct (iter_Ok_inv _ _ _ _ _ _ H) as (Hd & Ha & _).
  split.
  - intros Hi. rewrite Ha. now rewrite attach_if_needed_initialized.
  - intros Hi.
    destruct (Argus_Init_outcome os (argus s)) as [[Ht Hat] | [Hfalse Hz]].
    + unfold attach_if_needed in Ha, Hd. rewrite Hi in Ha, Hd.
      unfold Argus_Init, Argus_Init_fail in *. cbn in *.
      destruct (Z.eqb_spec (os_OpenFileMappingW os) 0); [discriminate Ht |].
      destruct (Z.eqb_spec (os_MapViewOfFile os (os_OpenFileMappingW os)) 0);
        [discriminate Ht |].
      destruct (Z.eqb_spec (os_OpenMutexW os) 0); [discriminate Ht |].
      cbn in Ha. auto.
    + exfalso. apply Hd. unfold attach_if_needed. rewrite Hi.
      destruct (Argus_Init os (argus s)) as [[ok as'] t]. cbn in Hz.
      subst as'. reflexivity.
Qed.

(** X15 at work: the first iteration after the publisher has come up. *)
Lemma X15_witness :
  exists s' tr,
    Argus_Thread_Update_iter sdk os_present seg_running State_zero = Ok (s', tr)
    /\ attached (argus s') /\ argus s' = handle_attached.
Proof.
  eexists. eexists. split; [reflexivity |].
  destruct (X15_completed_iteration_is_attached sdk os_present seg_running
              State_zero _ _ (or_intror eq_refl) eq_refl) as (Hat & _ & Hnew).
  split; [exact Hat |]. exact (proj2 (proj2 (proj2 (Hnew eq_refl)))).
Defined.

(* ------------------------------------------------------------------------- *)
(** ** The availability state machine, read on the cached reference *)



